(** * OpenHR20 motor controller (trunk/source/motor.c)

    A shallow embedding of the valve motor driver of the HR20 thermostat:
    the H-bridge control, the photo-eye pulse counter, the deferred stop
    handler with its calibration state machine, and the public API
    (MOTOR_updateCalibration, MOTOR_GetPosPercent, MOTOR_IsCalibrated,
    MOTOR_Goto).

    The target is an ATmega169 compiled with avr-gcc: [int] is 16 bits wide,
    signed arithmetic wraps, [>>] on a signed value is an arithmetic shift
    and [/] truncates towards zero.  Every C integer is a [Z] and the
    wrap-around of each store or intermediate result is written out. *)

From Stdlib Require Import ZArith Lia Bool List.
Import ListNotations.
Open Scope Z_scope.

(** ** Fixed-width integers *)

Module Int.

Definition int8 (z : Z) : Z := (z + 128) mod 256 - 128.
Definition int16 (z : Z) : Z := (z + 32768) mod 65536 - 32768.
Definition uint8 (z : Z) : Z := z mod 256.
Definition uint16 (z : Z) : Z := z mod 65536.

Definition in_int8 (z : Z) : Prop := -128 <= z <= 127.
Definition in_int16 (z : Z) : Prop := -32768 <= z <= 32767.
Definition in_uint8 (z : Z) : Prop := 0 <= z <= 255.
Definition in_uint16 (z : Z) : Prop := 0 <= z <= 65535.

End Int.

(** ** Register bits of the ATmega169 (avr/io.h) *)

Module Avr.

Definition PCINT0 : Z := 0.
Definition PCINT4 : Z := 4.
Definition PE0 : Z := 0.
Definition PE3 : Z := 3.
Definition PE4 : Z := 4.
Definition TOIE0 : Z := 0.
(* TCCR0A: FOC0A WGM00 COM0A1 COM0A0 WGM01 CS02 CS01 CS00 *)
Definition CS00 : Z := 0.
Definition WGM01 : Z := 3.
Definition COM0A0 : Z := 4.
Definition COM0A1 : Z := 5.
Definition WGM00 : Z := 6.

(** [1<<n] *)
Definition bit (n : Z) : Z := Z.shiftl 1 n.
(** [r |= m] and [r &= ~m] on an 8-bit register *)
Definition set_bits (r m : Z) : Z := Z.lor r m.
Definition clear_bits (r m : Z) : Z := Z.land r (Z.lnot m).

End Avr.

(** ** Data model *)

(** Modelled from the spec: the enum [motor_dir_t] of motor.h is not part of
    the source at hand; the direction doubles as the signed pulse increment
    (+1 open, -1 close, 0 stop). *)
Inductive motor_dir_t : Type := stop | open | close.

Definition dir_val (d : motor_dir_t) : Z :=
  match d with
  | stop => 0
  | open => 1
  | close => -1
  end.

Definition motor_dir_eqb (a b : motor_dir_t) : bool :=
  match a, b with
  | stop, stop | open, open | close, close => true
  | _, _ => false
  end.

(** Modelled from the spec: the macros MOTOR_H_BRIDGE_stop/open/close of
    motor.h are not part of the source at hand; the bridge is the record of
    which of the three primitives was applied last (pins PG3, PG4, PB7 of
    the table above MOTOR_Control). *)
Inductive hbridge_t : Type := hb_stop | hb_open | hb_close.

(** Fields of [config] the motor code reads; [MOTOR_ManuCalibration] is the
    16-bit value stored in the two bytes MOTOR_ManuCalibration_L/_H. *)
Record config_t : Type := mkConfig {
  motor_run_timeout : Z;
  motor_speed_open : Z;
  motor_speed_close : Z;
  motor_hysteresis : Z;
  motor_protection : Z;
  MOTOR_ManuCalibration : Z
}.

(** Bytes of [config] handed to [eeprom_config_save], by field. *)
Inductive config_field : Type :=
  | MOTOR_ManuCalibration_L
  | MOTOR_ManuCalibration_H.

(** Hardware registers the motor code drives. *)
Record avr_io : Type := mkIo {
  TIMSK0 : Z;
  PCMSK0 : Z;
  PORTE : Z;
  TCCR0A : Z;
  OCR0A : Z;
  H_BRIDGE : hbridge_t
}.

(** The globals of motor.c, with the collaborators' state it touches. *)
Record motor_t : Type := mkMotor {
  MOTOR_PosAct : Z;                      (* volatile int16_t *)
  MOTOR_PosMax : Z;                      (* int16_t *)
  MOTOR_PosStop : Z;                     (* volatile int16_t *)
  MOTOR_Dir : motor_dir_t;
  MOTOR_calibration_step : Z;            (* int8_t *)
  motor_diag : Z;                        (* volatile uint16_t *)
  motor_max_time_for_impulse : Z;        (* volatile uint16_t *)
  motor_timer : Z;                       (* volatile uint16_t *)
  MOTOR_wait_for_new_calibration : Z;    (* uint8_t *)
  eye_timer : Z;                         (* volatile uint8_t *)
  pine_last : Z;                         (* uint8_t *)
  config : config_t;
  io : avr_io;
  CTL_error : Z;                         (* controller.h, uint8_t *)
  task : Z;                              (* task.h, uint8_t *)
  eeprom_saved : list config_field;      (* calls of eeprom_config_save, latest first *)
  rs_rx_enabled : bool                   (* effect of RS_enable_rx() *)
}.

(** The state after static initialisation, for a given configuration. *)
Definition motor_init (c : config_t) (h : avr_io) : motor_t :=
  {| MOTOR_PosAct := 0; MOTOR_PosMax := 0; MOTOR_PosStop := 0;
     MOTOR_Dir := stop; MOTOR_calibration_step := -2;
     motor_diag := 0; motor_max_time_for_impulse := 0; motor_timer := 0;
     MOTOR_wait_for_new_calibration := 5; eye_timer := 0; pine_last := 0;
     config := c; io := h; CTL_error := 0; task := 0;
     eeprom_saved := []; rs_rx_enabled := false |}.

(** *** Assignments *)

Definition set_MOTOR_PosAct (v : Z) (s : motor_t) : motor_t :=
  mkMotor v (MOTOR_PosMax s) (MOTOR_PosStop s) (MOTOR_Dir s)
    (MOTOR_calibration_step s) (motor_diag s) (motor_max_time_for_impulse s)
    (motor_timer s) (MOTOR_wait_for_new_calibration s) (eye_timer s)
    (pine_last s) (config s) (io s) (CTL_error s) (task s) (eeprom_saved s)
    (rs_rx_enabled s).

Definition set_MOTOR_PosMax (v : Z) (s : motor_t) : motor_t :=
  mkMotor (MOTOR_PosAct s) v (MOTOR_PosStop s) (MOTOR_Dir s)
    (MOTOR_calibration_step s) (motor_diag s) (motor_max_time_for_impulse s)
    (motor_timer s) (MOTOR_wait_for_new_calibration s) (eye_timer s)
    (pine_last s) (config s) (io s) (CTL_error s) (task s) (eeprom_saved s)
    (rs_rx_enabled s).

Definition set_MOTOR_PosStop (v : Z) (s : motor_t) : motor_t :=
  mkMotor (MOTOR_PosAct s) (MOTOR_PosMax s) v (MOTOR_Dir s)
    (MOTOR_calibration_step s) (motor_diag s) (motor_max_time_for_impulse s)
    (motor_timer s) (MOTOR_wait_for_new_calibration s) (eye_timer s)
    (pine_last s) (config s) (io s) (CTL_error s) (task s) (eeprom_saved s)
    (rs_rx_enabled s).

Definition set_MOTOR_Dir (v : motor_dir_t) (s : motor_t) : motor_t :=
  mkMotor (MOTOR_PosAct s) (MOTOR_PosMax s) (MOTOR_PosStop s) v
    (MOTOR_calibration_step s) (motor_diag s) (motor_max_time_for_impulse s)
    (motor_timer s) (MOTOR_wait_for_new_calibration s) (eye_timer s)
    (pine_last s) (config s) (io s) (CTL_error s) (task s) (eeprom_saved s)
    (rs_rx_enabled s).

Definition set_MOTOR_calibration_step (v : Z) (s : motor_t) : motor_t :=
  mkMotor (MOTOR_PosAct s) (MOTOR_PosMax s) (MOTOR_PosStop s) (MOTOR_Dir s)
    v (motor_diag s) (motor_max_time_for_impulse s)
    (motor_timer s) (MOTOR_wait_for_new_calibration s) (eye_timer s)
    (pine_last s) (config s) (io s) (CTL_error s) (task s) (eeprom_saved s)
    (rs_rx_enabled s).

Definition set_motor_diag (v : Z) (s : motor_t) : motor_t :=
  mkMotor (MOTOR_PosAct s) (MOTOR_PosMax s) (MOTOR_PosStop s) (MOTOR_Dir s)
    (MOTOR_calibration_step s) v (motor_max_time_for_impulse s)
    (motor_timer s) (MOTOR_wait_for_new_calibration s) (eye_timer s)
    (pine_last s) (config s) (io s) (CTL_error s) (task s) (eeprom_saved s)
    (rs_rx_enabled s).

Definition set_motor_max_time_for_impulse (v : Z) (s : motor_t) : motor_t :=
  mkMotor (MOTOR_PosAct s) (MOTOR_PosMax s) (MOTOR_PosStop s) (MOTOR_Dir s)
    (MOTOR_calibration_step s) (motor_diag s) v
    (motor_timer s) (MOTOR_wait_for_new_calibration s) (eye_timer s)
    (pine_last s) (config s) (io s) (CTL_error s) (task s) (eeprom_saved s)
    (rs_rx_enabled s).

Definition set_motor_timer (v : Z) (s : motor_t) : motor_t :=
  mkMotor (MOTOR_PosAct s) (MOTOR_PosMax s) (MOTOR_PosStop s) (MOTOR_Dir s)
    (MOTOR_calibration_step s) (motor_diag s) (motor_max_time_for_impulse s)
    v (MOTOR_wait_for_new_calibration s) (eye_timer s)
    (pine_last s) (config s) (io s) (CTL_error s) (task s) (eeprom_saved s)
    (rs_rx_enabled s).

Definition set_MOTOR_wait_for_new_calibration (v : Z) (s : motor_t) : motor_t :=
  mkMotor (MOTOR_PosAct s) (MOTOR_PosMax s) (MOTOR_PosStop s) (MOTOR_Dir s)
    (MOTOR_calibration_step s) (motor_diag s) (motor_max_time_for_impulse s)
    (motor_timer s) v (eye_timer s)
    (pine_last s) (config s) (io s) (CTL_error s) (task s) (eeprom_saved s)
    (rs_rx_enabled s).

Definition set_eye_timer (v : Z) (s : motor_t) : motor_t :=
  mkMotor (MOTOR_PosAct s) (MOTOR_PosMax s) (MOTOR_PosStop s) (MOTOR_Dir s)
    (MOTOR_calibration_step s) (motor_diag s) (motor_max_time_for_impulse s)
    (motor_timer s) (MOTOR_wait_for_new_calibration s) v
    (pine_last s) (config s) (io s) (CTL_error s) (task s) (eeprom_saved s)
    (rs_rx_enabled s).

Definition set_pine_last (v : Z) (s : motor_t) : motor_t :=
  mkMotor (MOTOR_PosAct s) (MOTOR_PosMax s) (MOTOR_PosStop s) (MOTOR_Dir s)
    (MOTOR_calibration_step s) (motor_diag s) (motor_max_time_for_impulse s)
    (motor_timer s) (MOTOR_wait_for_new_calibration s) (eye_timer s)
    v (config s) (io s) (CTL_error s) (task s) (eeprom_saved s)
    (rs_rx_enabled s).

Definition set_config (v : config_t) (s : motor_t) : motor_t :=
  mkMotor (MOTOR_PosAct s) (MOTOR_PosMax s) (MOTOR_PosStop s) (MOTOR_Dir s)
    (MOTOR_calibration_step s) (motor_diag s) (motor_max_time_for_impulse s)
    (motor_timer s) (MOTOR_wait_for_new_calibration s) (eye_timer s)
    (pine_last s) v (io s) (CTL_error s) (task s) (eeprom_saved s)
    (rs_rx_enabled s).

Definition set_io (v : avr_io) (s : motor_t) : motor_t :=
  mkMotor (MOTOR_PosAct s) (MOTOR_PosMax s) (MOTOR_PosStop s) (MOTOR_Dir s)
    (MOTOR_calibration_step s) (motor_diag s) (motor_max_time_for_impulse s)
    (motor_timer s) (MOTOR_wait_for_new_calibration s) (eye_timer s)
    (pine_last s) (config s) v (CTL_error s) (task s) (eeprom_saved s)
    (rs_rx_enabled s).

Definition set_CTL_error (v : Z) (s : motor_t) : motor_t :=
  mkMotor (MOTOR_PosAct s) (MOTOR_PosMax s) (MOTOR_PosStop s) (MOTOR_Dir s)
    (MOTOR_calibration_step s) (motor_diag s) (motor_max_time_for_impulse s)
    (motor_timer s) (MOTOR_wait_for_new_calibration s) (eye_timer s)
    (pine_last s) (config s) (io s) v (task s) (eeprom_saved s)
    (rs_rx_enabled s).

Definition set_task (v : Z) (s : motor_t) : motor_t :=
  mkMotor (MOTOR_PosAct s) (MOTOR_PosMax s) (MOTOR_PosStop s) (MOTOR_Dir s)
    (MOTOR_calibration_step s) (motor_diag s) (motor_max_time_for_impulse s)
    (motor_timer s) (MOTOR_wait_for_new_calibration s) (eye_timer s)
    (pine_last s) (config s) (io s) (CTL_error s) v (eeprom_saved s)
    (rs_rx_enabled s).

Definition eeprom_config_save (f : config_field) (s : motor_t) : motor_t :=
  mkMotor (MOTOR_PosAct s) (MOTOR_PosMax s) (MOTOR_PosStop s) (MOTOR_Dir s)
    (MOTOR_calibration_step s) (motor_diag s) (motor_max_time_for_impulse s)
    (motor_timer s) (MOTOR_wait_for_new_calibration s) (eye_timer s)
    (pine_last s) (config s) (io s) (CTL_error s) (task s)
    (f :: eeprom_saved s) (rs_rx_enabled s).

(** Modelled from the spec: the macro RS_enable_rx of rs232_485.h is not part
    of the source at hand; it re-enables the serial receiver, recorded as a
    flag. *)
Definition RS_enable_rx (s : motor_t) : motor_t :=
  mkMotor (MOTOR_PosAct s) (MOTOR_PosMax s) (MOTOR_PosStop s) (MOTOR_Dir s)
    (MOTOR_calibration_step s) (motor_diag s) (motor_max_time_for_impulse s)
    (motor_timer s) (MOTOR_wait_for_new_calibration s) (eye_timer s)
    (pine_last s) (config s) (io s) (CTL_error s) (task s) (eeprom_saved s)
    true.

Definition set_MOTOR_ManuCalibration (v : Z) (s : motor_t) : motor_t :=
  let c := config s in
  set_config
    (mkConfig (motor_run_timeout c) (motor_speed_open c) (motor_speed_close c)
       (motor_hysteresis c) (motor_protection c) v) s.

Definition set_TIMSK0 (v : Z) (s : motor_t) : motor_t :=
  let h := io s in
  set_io (mkIo v (PCMSK0 h) (PORTE h) (TCCR0A h) (OCR0A h) (H_BRIDGE h)) s.

Definition set_PCMSK0 (v : Z) (s : motor_t) : motor_t :=
  let h := io s in
  set_io (mkIo (TIMSK0 h) v (PORTE h) (TCCR0A h) (OCR0A h) (H_BRIDGE h)) s.

Definition set_PORTE (v : Z) (s : motor_t) : motor_t :=
  let h := io s in
  set_io (mkIo (TIMSK0 h) (PCMSK0 h) v (TCCR0A h) (OCR0A h) (H_BRIDGE h)) s.

Definition set_TCCR0A (v : Z) (s : motor_t) : motor_t :=
  let h := io s in
  set_io (mkIo (TIMSK0 h) (PCMSK0 h) (PORTE h) v (OCR0A h) (H_BRIDGE h)) s.

Definition set_OCR0A (v : Z) (s : motor_t) : motor_t :=
  let h := io s in
  set_io (mkIo (TIMSK0 h) (PCMSK0 h) (PORTE h) (TCCR0A h) v (H_BRIDGE h)) s.

Definition set_H_BRIDGE (v : hbridge_t) (s : motor_t) : motor_t :=
  let h := io s in
  set_io (mkIo (TIMSK0 h) (PCMSK0 h) (PORTE h) (TCCR0A h) (OCR0A h) v) s.

Definition MOTOR_H_BRIDGE_stop : motor_t -> motor_t := set_H_BRIDGE hb_stop.
Definition MOTOR_H_BRIDGE_open : motor_t -> motor_t := set_H_BRIDGE hb_open.
Definition MOTOR_H_BRIDGE_close : motor_t -> motor_t := set_H_BRIDGE hb_close.

(** Sequencing of statements: [s |> f |> g] runs [f], then [g]. *)
Notation "s |> f" := (f s) (at level 45, left associativity, only parsing).

(** [#define MOTOR_RUN_OVERLOAD (3*256)] *)
Definition MOTOR_RUN_OVERLOAD : Z := 3 * 256.

(** ** Concrete boards and states

    Values on which the model is run in the examples at the end; the
    statements proved in section [Motor] are for every value of the
    constants. *)

Module Sample.

Definition MAX_IMPULSES : Z := 1000.
Definition MIN_IMPULSES : Z := 100.
Definition NOISE_PROTECTION : Z := 5.
Definition ERR_MOTOR : Z := 0x08.
Definition MOTOR_PULSE : Z := 0x10.
Definition MOTOR_STOP : Z := 0x08.

(** Run timeout 20, opening speed 180, closing speed 200, and the given
    hysteresis, protection and manual calibration value. *)
Definition cfg_margins (hysteresis protection manu : Z) : config_t :=
  mkConfig 20 180 200 hysteresis protection manu.

(** Hysteresis 10 and protection 15. *)
Definition cfg (manu : Z) : config_t := cfg_margins 10 15 manu.

(** All registers cleared, bridge off. *)
Definition regs : avr_io := mkIo 0 0 0 0 0 hb_stop.

(** The state right after start-up, without a manual calibration value. *)
Definition fresh : motor_t := motor_init (cfg (-1)) regs.

(** A calibrated, idle motor at position [act] of a travel of [max]. *)
Definition idle (act max : Z) (c : config_t) : motor_t :=
  set_MOTOR_calibration_step 0
    (set_MOTOR_PosMax max (set_MOTOR_PosAct act (motor_init c regs))).

(** A motor running in direction [d] in calibration step [step], at position
    [act], towards [target]. *)
Definition running (d : motor_dir_t) (step act target : Z) (c : config_t) : motor_t :=
  set_MOTOR_Dir d
    (set_MOTOR_PosStop target
       (set_MOTOR_calibration_step step
          (set_MOTOR_PosAct act (motor_init c regs)))).

End Sample.

Section Motor.

(** Constants of motor.h, controller.h and task.h, and whether a serial
    port is compiled in (COM_RS232 or COM_RS485). *)
Variable MOTOR_MAX_IMPULSES : Z.
Variable MOTOR_MIN_IMPULSES : Z.
Variable EYE_TIMER_NOISE_PROTECTION : Z.
Variable CTL_ERR_MOTOR : Z.
Variable TASK_MOTOR_PULSE : Z.
Variable TASK_MOTOR_STOP : Z.
Variable COM_SERIAL : bool.

(** *** MOTOR_Control: drive the H-bridge *)

Definition MOTOR_Control (direction : motor_dir_t) (s : motor_t) : motor_t :=
  let s :=
    match direction with
    | stop =>
        s |> set_TIMSK0 0
          |> (fun s => set_PCMSK0 (Avr.clear_bits (PCMSK0 (io s)) (Avr.bit Avr.PCINT4)) s)
          |> (fun s => set_PORTE (Avr.clear_bits (PORTE (io s)) (Avr.bit Avr.PE3)) s)
          |> MOTOR_H_BRIDGE_stop
          |> set_TCCR0A (Z.lor (Avr.bit Avr.WGM00) (Avr.bit Avr.WGM01))
    | _ =>
        if negb (motor_dir_eqb (MOTOR_Dir s) direction) then
          let s := set_PORTE (Avr.set_bits (PORTE (io s)) (Avr.bit Avr.PE3)) s in
          let t := Int.uint16 (Z.shiftl (motor_run_timeout (config s)) 8) in
          let s := s |> set_motor_max_time_for_impulse t |> set_motor_timer t in
          let s := s |> set_eye_timer EYE_TIMER_NOISE_PROTECTION
                     |> set_TIMSK0 (Avr.bit Avr.TOIE0) in
          let s := set_PCMSK0 (Avr.set_bits (PCMSK0 (io s)) (Avr.bit Avr.PCINT4)) s in
          match direction with
          | close =>
              s |> MOTOR_H_BRIDGE_close
                |> set_OCR0A (motor_speed_close (config s))
                |> set_TCCR0A (Z.lor (Z.lor (Z.lor (Avr.bit Avr.WGM00) (Avr.bit Avr.WGM01))
                                        (Avr.bit Avr.COM0A1)) (Avr.bit Avr.CS00))
          | _ =>
              s |> MOTOR_H_BRIDGE_open
                |> set_OCR0A (motor_speed_open (config s))
                |> set_TCCR0A (Z.lor (Z.lor (Z.lor (Z.lor (Avr.bit Avr.WGM00) (Avr.bit Avr.WGM01))
                                        (Avr.bit Avr.COM0A1)) (Avr.bit Avr.COM0A0)) (Avr.bit Avr.CS00))
          end
        else s
    end in
  set_MOTOR_Dir direction s.

(** *** MOTOR_updateCalibration *)

Definition MOTOR_updateCalibration (cal_type percent : Z) (s : motor_t) : motor_t :=
  if cal_type =? 0 then
    s |> MOTOR_Control stop
      |> set_MOTOR_PosAct 0
      |> set_MOTOR_PosMax 0
      |> set_MOTOR_calibration_step (-2)
      |> set_MOTOR_wait_for_new_calibration 5
  else
    let s :=
      if negb (MOTOR_wait_for_new_calibration s =? 0) then
        set_MOTOR_wait_for_new_calibration
          (Int.uint8 (MOTOR_wait_for_new_calibration s - 1)) s
      else if (MOTOR_calibration_step s =? 1) || (MOTOR_calibration_step s =? 2) then
        let s := set_MOTOR_calibration_step (Int.int8 (MOTOR_calibration_step s + 2)) s in
        if (MOTOR_ManuCalibration (config s) =? -1) && (percent >? 50) then
          s |> set_MOTOR_PosStop (Int.int16 (- MOTOR_MAX_IMPULSES))
            |> MOTOR_Control close
        else
          s |> set_MOTOR_PosStop (Int.int16 MOTOR_MAX_IMPULSES)
            |> MOTOR_Control open
      else s in
    if MOTOR_calibration_step s =? -2 then
      let s :=
        if cal_type =? 3 then
          s |> set_MOTOR_ManuCalibration (-1)
            |> eeprom_config_save MOTOR_ManuCalibration_L
            |> eeprom_config_save MOTOR_ManuCalibration_H
        else if cal_type =? 2 then
          set_MOTOR_ManuCalibration 0 s
        else s in
      let s := set_MOTOR_calibration_step 1 s in
      if MOTOR_ManuCalibration (config s) >=? 0 then
        set_MOTOR_calibration_step (Int.int8 (MOTOR_calibration_step s + 1)) s
      else s
    else s.

(** *** MOTOR_GetPosPercent, MOTOR_IsCalibrated *)

Definition MOTOR_GetPosPercent (s : motor_t) : Z :=
  if (MOTOR_PosMax s >? 10) && (MOTOR_calibration_step s =? 0) then
    Int.uint8 (Z.quot (Int.int16 (MOTOR_PosAct s * 10)) (Z.quot (MOTOR_PosMax s) 10))
  else 255.

Definition MOTOR_IsCalibrated (s : motor_t) : bool :=
  negb (MOTOR_PosMax s =? 0) && (MOTOR_calibration_step s =? 0).

(** *** MOTOR_Goto *)

(** The stop position [MOTOR_Goto] stores for [percent]. *)
Definition goto_stop_position (percent : Z) (s : motor_t) : Z :=
  let hysteresis := motor_hysteresis (config s) in
  let protection := motor_protection (config s) in
  if percent =? 100 then
    Int.int16 (MOTOR_PosMax s + hysteresis - protection)
  else if percent =? 0 then
    Int.int16 (protection - hysteresis)
  else
    Int.int16
      (Z.quot
         (Int.int16
            (percent *
             Z.shiftr (Int.int16 (MOTOR_PosMax s - protection - protection)) 2))
         (Z.shiftr 100 2)
       + protection).

Definition MOTOR_Goto (percent : Z) (s : motor_t) : bool * motor_t :=
  if MOTOR_calibration_step s =? 0 then
    let s := set_MOTOR_PosStop (goto_stop_position percent s) s in
    let s :=
      if motor_dir_eqb (MOTOR_Dir s) stop then
        let a := MOTOR_PosAct s in
        let s' := MOTOR_PosStop s in
        if a >? s' then MOTOR_Control close s
        else if a <? s' then MOTOR_Control open s
        else s
      else s in
    (true, s)
  else (false, s).

(** *** MOTOR_timer_stop: the deferred stop handler *)

Definition MOTOR_timer_stop (s : motor_t) : motor_t :=
  let d := MOTOR_Dir s in
  let s := MOTOR_Control stop s in
  let s :=
    if eye_timer s =? 0xff then
      if negb (MOTOR_calibration_step s =? 0) then
        set_MOTOR_calibration_step (-1) s
      else s
    else
      match d with
      | open =>
          let a := MOTOR_PosAct s in
          let s :=
            if MOTOR_ManuCalibration (config s) <=? 0 then
              let s := set_MOTOR_PosMax a s in
              if (MOTOR_ManuCalibration (config s) =? 0)
                 && (MOTOR_PosMax s >=? MOTOR_MIN_IMPULSES) then
                s |> set_MOTOR_ManuCalibration a
                  |> eeprom_config_save MOTOR_ManuCalibration_L
                  |> eeprom_config_save MOTOR_ManuCalibration_H
              else s
            else
              s |> set_MOTOR_PosAct (MOTOR_ManuCalibration (config s))
                |> set_MOTOR_PosMax (MOTOR_ManuCalibration (config s)) in
          if MOTOR_calibration_step s =? 3 then
            s |> MOTOR_Control close
              |> set_MOTOR_PosStop (Int.int16 (a - MOTOR_MAX_IMPULSES))
              |> set_MOTOR_calibration_step 4
          else if MOTOR_calibration_step s =? 4 then
            set_MOTOR_calibration_step 0 s
          else s
      | close =>
          let a := MOTOR_PosAct s in
          let s :=
            if MOTOR_ManuCalibration (config s) <? 0 then
              set_MOTOR_PosMax (Int.int16 (MOTOR_PosMax s - a)) s
            else s in
          let s := set_MOTOR_PosAct 0 s in
          if MOTOR_calibration_step s =? 3 then
            s |> set_MOTOR_PosStop (Int.int16 (a + MOTOR_MAX_IMPULSES))
              |> MOTOR_Control open
              |> set_MOTOR_calibration_step 4
          else if MOTOR_calibration_step s =? 4 then
            set_MOTOR_calibration_step 0 s
          else s
      | stop => s
      end in
  if (MOTOR_calibration_step s =? 0)
     && ((MOTOR_PosAct s >? MOTOR_MAX_IMPULSES + 1)
         || (MOTOR_PosMax s <? MOTOR_MIN_IMPULSES)) then
    set_CTL_error (Avr.set_bits (CTL_error s) CTL_ERR_MOTOR) s
  else
    set_CTL_error (Avr.clear_bits (CTL_error s) CTL_ERR_MOTOR) s.

(** *** Interrupts *)

(** Pin-change interrupt PCINT0; [pine] is the value read from PINE. *)
Definition PCINT0_vect (pine : Z) (s : motor_t) : motor_t :=
  let s :=
    if COM_SERIAL && (Z.land pine (Avr.bit Avr.PE0) =? 0) then
      s |> RS_enable_rx
        |> (fun s => set_PCMSK0 (Avr.clear_bits (PCMSK0 (io s)) (Avr.bit Avr.PCINT0)) s)
    else s in
  let s :=
    if negb (Z.land (Z.land pine (Z.lnot (pine_last s))) (Avr.bit Avr.PE4) =? 0)
       && (eye_timer s =? 0) then
      let s := set_MOTOR_PosAct (Int.int16 (MOTOR_PosAct s + dir_val (MOTOR_Dir s))) s in
      let s := set_motor_diag
                 (Int.uint16 (motor_max_time_for_impulse s - motor_timer s)) s in
      let s := set_task (Z.lor (task s) TASK_MOTOR_PULSE) s in
      if MOTOR_PosAct s =? MOTOR_PosStop s then
        s |> set_eye_timer 0xff
          |> set_motor_timer MOTOR_RUN_OVERLOAD
      else
        s |> set_eye_timer EYE_TIMER_NOISE_PROTECTION
          |> set_motor_timer (motor_max_time_for_impulse s)
    else s in
  set_pine_last pine s.

(** Timer0 overflow interrupt. *)
Definition TIMER0_OVF_vect (s : motor_t) : motor_t :=
  let s :=
    if motor_timer s >? 0 then
      set_motor_timer (motor_timer s - 1) s
    else
      let s := MOTOR_H_BRIDGE_stop s in
      let s := if eye_timer s =? 0xff then set_motor_diag 0xffff s
               else set_motor_diag 0xfffe s in
      s |> set_TCCR0A (Z.lor (Avr.bit Avr.WGM00) (Avr.bit Avr.WGM01))
        |> (fun s => set_task (Z.lor (task s) (Z.lor TASK_MOTOR_STOP TASK_MOTOR_PULSE)) s) in
  let e := eye_timer s in
  if (e >? 0) && (e <? 0xff) then set_eye_timer (e - 1) s else s.


(** *** Observations used in the statements *)

(** The motor fault bit as the controller tests it:
    [(CTL_error & CTL_ERR_MOTOR) != 0]. *)
Definition motor_fault (s : motor_t) : bool :=
  negb (Z.land (CTL_error s) CTL_ERR_MOTOR =? 0).

(** The stop position in force after [MOTOR_Goto percent]. *)
Definition goto_target (percent : Z) (s : motor_t) : Z :=
  MOTOR_PosStop (snd (MOTOR_Goto percent s)).

(** The pending step [MOTOR_updateCalibration] enters from -2: 1, and one
    more when the manual calibration value is not negative. *)
Definition pending_step (s : motor_t) : Z :=
  if MOTOR_ManuCalibration (config s) <? 0 then 1 else 2.

(** [n] periodic calls [MOTOR_updateCalibration(1, 0)] in a row. *)
Definition calibration_ticks (n : nat) (s : motor_t) : motor_t :=
  Nat.iter n (MOTOR_updateCalibration 1 0) s.

(** The steps of the calibration state machine: -2 .. 4. *)
Definition valid_step (z : Z) : bool := (-2 <=? z) && (z <=? 4).

(** [n] overflows of timer 0 in a row. *)
Definition timer_ticks (n : nat) (s : motor_t) : motor_t :=
  Nat.iter n TIMER0_OVF_vect s.

(** The test of [PCINT0_vect] for a pulse that counts: a rising edge on PE4
    against the last sample, with the debounce counter at zero. *)
Definition pulse_counts (pine : Z) (s : motor_t) : bool :=
  negb (Z.land (Z.land pine (Z.lnot (pine_last s))) (Avr.bit Avr.PE4) =? 0)
  && (eye_timer s =? 0).

(** One clean pulse of the photo eye while the motor runs: the debounce
    window elapses ([EYE_TIMER_NOISE_PROTECTION] timer overflows), PINE is
    sampled as [lo] and then as [hi]. *)
Definition pulse_cycle (lo hi : Z) (s : motor_t) : motor_t :=
  PCINT0_vect hi
    (PCINT0_vect lo (timer_ticks (Z.to_nat EYE_TIMER_NOISE_PROTECTION) s)).

(** ** Properties *)

(** *** Fixed-width arithmetic and register bits *)

Lemma int16_id z : Int.in_int16 z -> Int.int16 z = z.
Proof.
  unfold Int.in_int16, Int.int16; intros H.
  rewrite Z.mod_small; lia.
Qed.

Lemma set_bits_land r m : Z.land (Avr.set_bits r m) m = m.
Proof.
  unfold Avr.set_bits. apply Z.bits_inj'; intros n Hn.
  rewrite Z.land_spec, Z.lor_spec.
  destruct (Z.testbit r n), (Z.testbit m n); reflexivity.
Qed.

Lemma clear_bits_land r m : Z.land (Avr.clear_bits r m) m = 0.
Proof.
  unfold Avr.clear_bits.
  rewrite <- Z.land_assoc, (Z.land_comm (Z.lnot m)), Z.land_lnot_diag.
  apply Z.land_0_r.
Qed.

Lemma clear_bits_testbit r n : 0 <= n -> Z.testbit (Avr.clear_bits r (Avr.bit n)) n = false.
Proof.
  intros Hn. unfold Avr.clear_bits, Avr.bit.
  rewrite Z.land_spec, Z.lnot_spec, Z.shiftl_spec by assumption.
  rewrite Z.sub_diag. simpl. apply andb_false_r.
Qed.

Lemma clear_bits_other r n k :
  0 <= n -> 0 <= k -> n <> k ->
  Z.testbit (Avr.clear_bits r (Avr.bit n)) k = Z.testbit r k.
Proof.
  intros Hn Hk Hne. unfold Avr.clear_bits, Avr.bit.
  rewrite Z.land_spec, Z.lnot_spec, Z.shiftl_spec by assumption.
  destruct (Z.lt_ge_cases k n) as [Hlt | Hge].
  - rewrite (Z.testbit_neg_r 1 (k - n)) by lia. apply andb_true_r.
  - replace (Z.testbit 1 (k - n)) with false.
    + apply andb_true_r.
    + symmetry. apply (Z.bits_above_log2 1 (k - n)); [lia | change (Z.log2 1) with 0; lia].
Qed.

Lemma motor_dir_eqb_eq a b : motor_dir_eqb a b = true <-> a = b.
Proof. destruct a, b; simpl; split; congruence. Qed.

(** *** What MOTOR_Control leaves alone *)

Lemma MOTOR_Control_Dir d s : MOTOR_Dir (MOTOR_Control d s) = d.
Proof. reflexivity. Qed.

Lemma MOTOR_Control_vars d s :
  let s' := MOTOR_Control d s in
  MOTOR_PosAct s' = MOTOR_PosAct s /\
  MOTOR_PosMax s' = MOTOR_PosMax s /\
  MOTOR_PosStop s' = MOTOR_PosStop s /\
  MOTOR_calibration_step s' = MOTOR_calibration_step s /\
  MOTOR_wait_for_new_calibration s' = MOTOR_wait_for_new_calibration s /\
  config s' = config s /\
  CTL_error s' = CTL_error s.
Proof.
  unfold MOTOR_Control.
  destruct d; try destruct (motor_dir_eqb (MOTOR_Dir s) _); cbn; repeat split.
Qed.

Lemma MOTOR_Control_step d s :
  MOTOR_calibration_step (MOTOR_Control d s) = MOTOR_calibration_step s.
Proof. apply MOTOR_Control_vars. Qed.

Lemma MOTOR_Control_same d s :
  d <> stop -> MOTOR_Dir s = d -> MOTOR_Control d s = s.
Proof.
  intros Hd Hs. unfold MOTOR_Control.
  assert (E : motor_dir_eqb (MOTOR_Dir s) d = true) by (apply motor_dir_eqb_eq; exact Hs).
  destruct d; [congruence | | ]; rewrite E; cbn; destruct s; cbn in *; subst; reflexivity.
Qed.

(** Linear arithmetic with divisions by constants. *)
Ltac lia_div := Z.div_mod_to_equations; lia.

Ltac case_if :=
  match goal with
  | |- context [if ?b then _ else _] => destruct b eqn:?
  end.

(** *** The deferred stop handler after the stop position was hit *)

(** C1 (amended): when the deferred stop handler runs with the debounce
    counter equal to the sentinel 0xff, it stops the motor and treats the
    stop as a failure: if a calibration is in progress (CalibrationStep != 0)
    it sets CalibrationStep = -1 (a CalibrationStep of 0 stays 0), and in
    every case with the sentinel set it leaves ActualPosition, MaxPosition and
    StopPosition unchanged. *)
Theorem MOTOR_timer_stop_sentinel s :
  eye_timer s = 0xff ->
  let s' := MOTOR_timer_stop s in
  (MOTOR_calibration_step s <> 0 -> MOTOR_calibration_step s' = -1) /\
  (MOTOR_calibration_step s = 0 -> MOTOR_calibration_step s' = 0) /\
  MOTOR_PosAct s' = MOTOR_PosAct s /\
  MOTOR_PosMax s' = MOTOR_PosMax s /\
  MOTOR_PosStop s' = MOTOR_PosStop s /\
  MOTOR_Dir s' = stop.
Proof.
  intros He. unfold MOTOR_timer_stop.
  replace (eye_timer (MOTOR_Control stop s)) with 0xff by (symmetry; exact He).
  change (0xff =? 0xff) with true. cbv iota.
  change (MOTOR_calibration_step (MOTOR_Control stop s))
    with (MOTOR_calibration_step s).
  destruct (MOTOR_calibration_step s =? 0) eqn:E; cbv beta iota zeta;
    [apply Z.eqb_eq in E | apply Z.eqb_neq in E];
    case_if; cbn; repeat split; intros; congruence.
Qed.

(** *** MOTOR_Goto *)

Lemma MOTOR_Goto_PosStop percent s :
  MOTOR_calibration_step s = 0 ->
  MOTOR_PosStop (snd (MOTOR_Goto percent s)) = goto_stop_position percent s.
Proof.
  intros H. unfold MOTOR_Goto. rewrite H. cbn -[goto_stop_position MOTOR_Control].
  repeat case_if; cbn -[goto_stop_position MOTOR_Control];
    try apply MOTOR_Control_vars; reflexivity.
Qed.

(** C3 (amended): for every percent, Goto(percent) called while
    CalibrationStep != 0 returns false and leaves the whole motor state,
    StopPosition and Direction included, unchanged. *)
Theorem MOTOR_Goto_not_calibrated percent s :
  MOTOR_calibration_step s <> 0 ->
  MOTOR_Goto percent s = (false, s).
Proof.
  intros H. unfold MOTOR_Goto.
  apply Z.eqb_neq in H. rewrite H. reflexivity.
Qed.

(** C10: when Goto(percent) is called with CalibrationStep == 0, the motor
    idle and ActualPosition already equal to the stop position computed for
    percent, it returns true and only stores that stop position: no motor
    command is issued, Direction stays Stop and no register is touched. *)
Theorem MOTOR_Goto_in_position percent s :
  MOTOR_calibration_step s = 0 ->
  MOTOR_Dir s = stop ->
  MOTOR_PosAct s = goto_stop_position percent s ->
  MOTOR_Goto percent s = (true, set_MOTOR_PosStop (goto_stop_position percent s) s) /\
  MOTOR_Dir (snd (MOTOR_Goto percent s)) = stop /\
  io (snd (MOTOR_Goto percent s)) = io s /\
  motor_timer (snd (MOTOR_Goto percent s)) = motor_timer s /\
  eye_timer (snd (MOTOR_Goto percent s)) = eye_timer s.
Proof.
  intros Hc Hd Ha.
  assert (E : MOTOR_Goto percent s
              = (true, set_MOTOR_PosStop (goto_stop_position percent s) s)).
  { unfold MOTOR_Goto. rewrite Hc. cbn -[goto_stop_position MOTOR_Control].
    rewrite Hd. cbn -[goto_stop_position MOTOR_Control].
    rewrite Ha, Z.gtb_ltb, Z.ltb_irrefl. reflexivity. }
  rewrite E. cbn -[goto_stop_position]. auto.
Qed.

(** *** The pulse counter *)

(** C5: a qualifying feedback pulse (rising edge on PE4 while the debounce
    counter is zero) that makes ActualPosition equal StopPosition does not
    stop the motor: Direction, bridge and PWM registers stay as they are, the
    debounce counter is set to the sentinel 0xff and the timeout is armed
    with the fixed MOTOR_RUN_OVERLOAD instead of the per-pulse timeout. *)
Theorem PCINT0_vect_stop_position pine s :
  Z.land (Z.land pine (Z.lnot (pine_last s))) (Avr.bit Avr.PE4) <> 0 ->
  eye_timer s = 0 ->
  Int.int16 (MOTOR_PosAct s + dir_val (MOTOR_Dir s)) = MOTOR_PosStop s ->
  let s' := PCINT0_vect pine s in
  MOTOR_PosAct s' = MOTOR_PosStop s /\
  eye_timer s' = 0xff /\
  motor_timer s' = MOTOR_RUN_OVERLOAD /\
  MOTOR_Dir s' = MOTOR_Dir s /\
  H_BRIDGE (io s') = H_BRIDGE (io s) /\
  TCCR0A (io s') = TCCR0A (io s) /\
  OCR0A (io s') = OCR0A (io s) /\
  TIMSK0 (io s') = TIMSK0 (io s) /\
  PORTE (io s') = PORTE (io s) /\
  Z.testbit (PCMSK0 (io s')) Avr.PCINT4 = Z.testbit (PCMSK0 (io s)) Avr.PCINT4.
Proof.
  intros Hedge Heye Hpos. apply Z.eqb_neq in Hedge.
  unfold PCINT0_vect.
  destruct (COM_SERIAL && (Z.land pine (Avr.bit Avr.PE0) =? 0));
    cbn -[Int.int16 Z.land Z.lnot Avr.clear_bits Avr.bit Z.testbit];
    rewrite Hedge, Heye; cbn -[Int.int16 Z.land Z.lnot Avr.clear_bits Avr.bit Z.testbit];
    rewrite Hpos, Z.eqb_refl; cbn -[Avr.clear_bits Avr.bit Z.testbit];
    repeat split.
  apply clear_bits_other; unfold Avr.PCINT0, Avr.PCINT4; lia.
Qed.

(** *** MOTOR_Control *)

(** C8: Control(direction) with the direction that is already active and is
    not Stop changes nothing at all; Control(Stop) always performs the full
    quiesce, whatever the direction was: timer interrupt off, photo-eye
    interrupt and photo eye off, bridge stopped, PWM output disconnected. *)
Theorem MOTOR_Control_idempotent direction s :
  (direction <> stop -> MOTOR_Dir s = direction ->
   MOTOR_Control direction s = s) /\
  (let s' := MOTOR_Control stop s in
   MOTOR_Dir s' = stop /\
   TIMSK0 (io s') = 0 /\
   Z.testbit (PCMSK0 (io s')) Avr.PCINT4 = false /\
   Z.testbit (PORTE (io s')) Avr.PE3 = false /\
   H_BRIDGE (io s') = hb_stop /\
   TCCR0A (io s') = Z.lor (Avr.bit Avr.WGM00) (Avr.bit Avr.WGM01)).
Proof.
  split.
  - apply MOTOR_Control_same.
  - cbn -[Avr.clear_bits Avr.bit Z.testbit Z.lor].
    repeat split; apply clear_bits_testbit; discriminate.
Qed.

(** *** MOTOR_updateCalibration *)

(** C6: from any state, UpdateCalibration with cal_type 0 stops the motor at
    once (full quiesce, Direction Stop) and resets the calibration state:
    CalibrationStep == -2, ActualPosition == 0, MaxPosition == 0, and the
    retry-wait counter is back at 5. *)
Theorem MOTOR_updateCalibration_reset percent s :
  let s' := MOTOR_updateCalibration 0 percent s in
  MOTOR_calibration_step s' = -2 /\
  MOTOR_PosAct s' = 0 /\
  MOTOR_PosMax s' = 0 /\
  MOTOR_Dir s' = stop /\
  MOTOR_wait_for_new_calibration s' = 5 /\
  H_BRIDGE (io s') = hb_stop /\
  TIMSK0 (io s') = 0 /\
  Z.testbit (PCMSK0 (io s')) Avr.PCINT4 = false /\
  TCCR0A (io s') = Z.lor (Avr.bit Avr.WGM00) (Avr.bit Avr.WGM01).
Proof.
  cbn -[Avr.clear_bits Avr.bit Z.testbit Z.lor].
  repeat split. apply clear_bits_testbit; discriminate.
Qed.

(** *** The fault check of the deferred stop handler *)

(** C9: after every run of the deferred stop handler the motor fault bit is
    set if and only if, in the state the handler leaves, CalibrationStep == 0
    and (ActualPosition > MOTOR_MAX_IMPULSES + 1 or MaxPosition <
    MOTOR_MIN_IMPULSES); otherwise the handler has cleared it. *)
Theorem MOTOR_timer_stop_fault s :
  CTL_ERR_MOTOR <> 0 ->
  let s' := MOTOR_timer_stop s in
  motor_fault s' = true <->
  MOTOR_calibration_step s' = 0 /\
  (MOTOR_PosAct s' > MOTOR_MAX_IMPULSES + 1 \/
   MOTOR_PosMax s' < MOTOR_MIN_IMPULSES).
Proof.
  intros Hm. unfold MOTOR_timer_stop. cbv zeta.
  lazymatch goal with
  | |- context [set_CTL_error _ ?t] => generalize t
  end.
  intros t. unfold motor_fault.
  destruct ((MOTOR_calibration_step t =? 0)
            && ((MOTOR_PosAct t >? MOTOR_MAX_IMPULSES + 1)
                || (MOTOR_PosMax t <? MOTOR_MIN_IMPULSES))) eqn:E;
    cbn [CTL_error MOTOR_calibration_step MOTOR_PosAct MOTOR_PosMax set_CTL_error].
  - rewrite set_bits_land.
    apply andb_true_iff in E. destruct E as [E1 E2].
    apply orb_true_iff in E2. apply Z.eqb_eq in E1.
    apply Z.eqb_neq in Hm. rewrite Hm. split; [intros _ | reflexivity].
    split; [exact E1 |].
    destruct E2 as [E2 | E2]; [left; apply Z.gtb_lt in E2 | right; apply Z.ltb_lt in E2]; lia.
  - rewrite clear_bits_land. split; [discriminate |].
    intros [H1 H2]. exfalso.
    apply andb_false_iff in E. destruct E as [E | E].
    + apply Z.eqb_neq in E. contradiction.
    + apply orb_false_iff in E. destruct E as [Ea Eb].
      rewrite Z.gtb_ltb in Ea. apply Z.ltb_ge in Ea. apply Z.ltb_ge in Eb. lia.
Qed.

(** *** MOTOR_GetPosPercent *)

(** The reading of a calibrated motor inside its travel, where neither the
    16-bit product nor the 8-bit result wraps. *)
Lemma MOTOR_GetPosPercent_travel s :
  10 < MOTOR_PosMax s ->
  MOTOR_calibration_step s = 0 ->
  0 <= MOTOR_PosAct s <= MOTOR_PosMax s ->
  MOTOR_PosAct s <= 3276 ->
  MOTOR_GetPosPercent s = MOTOR_PosAct s * 10 / (MOTOR_PosMax s / 10) /\
  0 <= MOTOR_GetPosPercent s <= 190 /\
  (MOTOR_PosAct s <= 10 * (MOTOR_PosMax s / 10) -> MOTOR_GetPosPercent s <= 100) /\
  (100 <= MOTOR_PosMax s -> MOTOR_GetPosPercent s <= 109).
Proof.
  intros Hmax Hstep Hact Hsmall. unfold MOTOR_GetPosPercent.
  replace (MOTOR_PosMax s >? 10) with true
    by (symmetry; rewrite Z.gtb_ltb; apply Z.ltb_lt; exact Hmax).
  rewrite Hstep. cbn [andb Z.eqb].
  rewrite int16_id by (unfold Int.in_int16; lia).
  rewrite (Z.quot_div_nonneg (MOTOR_PosMax s) 10) by lia.
  assert (Hd : 1 <= MOTOR_PosMax s / 10)
    by (apply Z.div_le_lower_bound; lia).
  assert (Hm : MOTOR_PosMax s = 10 * (MOTOR_PosMax s / 10) + MOTOR_PosMax s mod 10
               /\ 0 <= MOTOR_PosMax s mod 10 < 10)
    by (split; [apply Z.div_mod; lia | apply Z.mod_pos_bound; lia]).
  rewrite Z.quot_div_nonneg by lia.
  set (q := MOTOR_PosMax s / 10) in *.
  set (m := MOTOR_PosMax s mod 10) in *.
  set (v := MOTOR_PosAct s * 10 / q).
  assert (Hv : 0 <= v <= 190).
  { split.
    - apply Z.div_pos; lia.
    - apply Z.div_le_upper_bound; lia. }
  unfold Int.uint8. rewrite Z.mod_small by lia.
  split; [reflexivity |]. split; [exact Hv |]. split.
  - intros Hten. apply Z.div_le_upper_bound; lia.
  - intros Hlong. assert (Hq : 10 <= q) by (apply Z.div_le_lower_bound; lia).
    assert (v < 110); [| lia].
    apply Z.div_lt_upper_bound; lia.
Qed.

(** C2 (amended): GetPositionPercent returns 255 whenever MaxPosition <= 10
    or CalibrationStep != 0; in every other state it returns the low 8 bits
    of the quotient of ActualPosition * 10, taken in 16 bits with wrap-around,
    by MaxPosition / 10, both divisions truncating (divide-then-multiply
    order).  Inside the travel, 0 <= ActualPosition <= MaxPosition, and with
    ActualPosition <= 3276, nothing wraps: there it returns 255 exactly when
    MaxPosition <= 10 or CalibrationStep != 0, and otherwise the plain
    quotient (ActualPosition * 10) / (MaxPosition / 10), which lies in 0..190,
    in 0..109 when MaxPosition >= 100, and in 0..100 when
    ActualPosition <= 10 * (MaxPosition / 10). *)
Theorem MOTOR_GetPosPercent_spec s :
  (MOTOR_PosMax s <= 10 \/ MOTOR_calibration_step s <> 0 ->
   MOTOR_GetPosPercent s = 255) /\
  (10 < MOTOR_PosMax s -> MOTOR_calibration_step s = 0 ->
   MOTOR_GetPosPercent s
   = Int.uint8 (Z.quot (Int.int16 (MOTOR_PosAct s * 10)) (Z.quot (MOTOR_PosMax s) 10))) /\
  (0 <= MOTOR_PosAct s <= MOTOR_PosMax s ->
   MOTOR_PosAct s <= 3276 ->
   (MOTOR_GetPosPercent s = 255 <->
    MOTOR_PosMax s <= 10 \/ MOTOR_calibration_step s <> 0) /\
   (10 < MOTOR_PosMax s -> MOTOR_calibration_step s = 0 ->
    MOTOR_GetPosPercent s = MOTOR_PosAct s * 10 / (MOTOR_PosMax s / 10) /\
    0 <= MOTOR_GetPosPercent s <= 190 /\
    (100 <= MOTOR_PosMax s -> MOTOR_GetPosPercent s <= 109) /\
    (MOTOR_PosAct s <= 10 * (MOTOR_PosMax s / 10) ->
     MOTOR_GetPosPercent s <= 100))).
Proof.
  assert (Hunknown : MOTOR_PosMax s <= 10 \/ MOTOR_calibration_step s <> 0 ->
                     MOTOR_GetPosPercent s = 255).
  { unfold MOTOR_GetPosPercent. intros [H | H].
    - replace (MOTOR_PosMax s >? 10) with false; [reflexivity |].
      symmetry. rewrite Z.gtb_ltb. apply Z.ltb_ge. exact H.
    - apply Z.eqb_neq in H. rewrite H, andb_false_r. reflexivity. }
  split; [exact Hunknown |]. split.
  - intros Hmax Hstep. unfold MOTOR_GetPosPercent.
    replace (MOTOR_PosMax s >? 10) with true
      by (symmetry; rewrite Z.gtb_ltb; apply Z.ltb_lt; exact Hmax).
    rewrite Hstep. reflexivity.
  - intros Hact Hsmall. split.
    + split; [| exact Hunknown].
      intros H255.
      destruct (Z_le_gt_dec (MOTOR_PosMax s) 10) as [Hle | Hgt]; [left; exact Hle |].
      destruct (Z.eq_dec (MOTOR_calibration_step s) 0) as [Hz | Hnz];
        [| right; exact Hnz].
      exfalso.
      destruct (MOTOR_GetPosPercent_travel s) as (_ & Hr & _); try assumption; lia.
    + intros Hmax Hstep.
      destruct (MOTOR_GetPosPercent_travel s Hmax Hstep Hact Hsmall)
        as (E & Hr & H100 & H109).
      repeat split; try assumption; lia.
Qed.

(** *** The stop positions MOTOR_Goto computes *)

Section StopPositions.

Variable s : motor_t.

Let hysteresis := motor_hysteresis (config s).
Let protection := motor_protection (config s).
Let span := MOTOR_PosMax s - 2 * protection.

Hypothesis hysteresis_byte : Int.in_uint8 hysteresis.
Hypothesis protection_byte : Int.in_uint8 protection.
Hypothesis span_range : 0 <= span <= 1323.

Lemma goto_stop_position_closed :
  goto_stop_position 0 s = protection - hysteresis.
Proof.
  unfold goto_stop_position. cbn [Z.eqb].
  apply int16_id. unfold Int.in_int16, Int.in_uint8 in *.
  fold hysteresis protection. lia.
Qed.

Lemma goto_stop_position_opened :
  goto_stop_position 100 s = MOTOR_PosMax s + hysteresis - protection.
Proof.
  unfold goto_stop_position. cbn [Z.eqb Pos.eqb].
  apply int16_id. unfold Int.in_int16, Int.in_uint8 in *.
  fold hysteresis protection. unfold span in span_range. lia.
Qed.

Lemma goto_stop_position_between p :
  1 <= p <= 99 ->
  goto_stop_position p s = p * (span / 4) / 25 + protection.
Proof.
  intros Hp. unfold goto_stop_position.
  replace (p =? 100) with false by (symmetry; apply Z.eqb_neq; lia).
  replace (p =? 0) with false by (symmetry; apply Z.eqb_neq; lia).
  fold hysteresis protection.
  replace (MOTOR_PosMax s - protection - protection) with span
    by (unfold span; lia).
  unfold Int.in_uint8 in *.
  rewrite (int16_id span) by (unfold Int.in_int16; lia).
  rewrite Z.shiftr_div_pow2 by lia.
  change (2 ^ 2) with 4. change (Z.shiftr 100 2) with 25.
  assert (Hx : 0 <= span / 4 <= 330) by (clear - span_range; lia_div).
  assert (Hy : 0 <= p * (span / 4) <= 32670) by nia.
  rewrite (int16_id (p * (span / 4))) by (unfold Int.in_int16; lia).
  rewrite Z.quot_div_nonneg by lia.
  apply int16_id. unfold Int.in_int16.
  set (y := p * (span / 4)) in *. clearbody y. lia_div.
Qed.

End StopPositions.

(** C4 (amended): when calibrated (CalibrationStep == 0) with byte-sized
    hysteresis and protection margins, MaxPosition between 2 * protection and
    2 * protection + 1323, and either a non-zero hysteresis or
    MaxPosition >= 2 * protection + 100, the StopPosition that Goto(percent)
    computes for every percent in [1,99] is strictly greater than the one for
    percent = 0 and strictly less than the one for percent = 100, and for
    p1 <= p2 in [1,99] the StopPosition for p1 is <= the one for p2. *)
Theorem MOTOR_Goto_stop_positions s :
  MOTOR_calibration_step s = 0 ->
  Int.in_uint8 (motor_hysteresis (config s)) ->
  Int.in_uint8 (motor_protection (config s)) ->
  0 <= MOTOR_PosMax s - 2 * motor_protection (config s) <= 1323 ->
  0 < motor_hysteresis (config s) \/
  100 <= MOTOR_PosMax s - 2 * motor_protection (config s) ->
  (forall p, 1 <= p <= 99 ->
     goto_target 0 s < goto_target p s < goto_target 100 s) /\
  (forall p1 p2, 1 <= p1 -> p1 <= p2 -> p2 <= 99 ->
     goto_target p1 s <= goto_target p2 s).
Proof.
  intros Hc Hh Hp Hspan Hstrict. unfold goto_target.
  split.
  - intros p Hrange. rewrite !MOTOR_Goto_PosStop by exact Hc.
    rewrite goto_stop_position_closed, goto_stop_position_opened,
      (goto_stop_position_between s Hp Hspan p) by assumption.
    unfold Int.in_uint8 in *.
    remember (MOTOR_PosMax s - 2 * motor_protection (config s)) as span eqn:Espan.
    assert (Hx : 0 <= span / 4 /\ 4 * (span / 4) <= span < 4 * (span / 4) + 4) by lia_div.
    set (x := span / 4) in *. clearbody x.
    assert (Hy : 0 <= p * x <= 99 * x) by nia.
    assert (Hlow : 100 <= span -> 25 <= p * x) by nia.
    set (y := p * x) in *. clearbody y.
    assert (Hq : 0 <= y / 25 /\ 25 * (y / 25) <= y) by lia_div.
    assert (Hq1 : 25 <= y -> 1 <= y / 25) by lia_div.
    lia.
  - intros p1 p2 H1 H12 H2. rewrite !MOTOR_Goto_PosStop by exact Hc.
    rewrite (goto_stop_position_between s Hp Hspan p1) by lia.
    rewrite (goto_stop_position_between s Hp Hspan p2) by lia.
    apply Z.add_le_mono_r. apply Z.div_le_mono; [lia |].
    apply Z.mul_le_mono_nonneg_r; [| exact H12].
    apply Z.div_pos; lia.
Qed.

(** *** The calibration launch *)

Lemma calibration_ticks_S n s :
  calibration_ticks (S n) s
  = MOTOR_updateCalibration 1 0 (calibration_ticks n s).
Proof. reflexivity. Qed.

(** The first call in the uninitialised state: one tick of the retry wait,
    and the pending step is chosen from the manual calibration value. *)
Lemma MOTOR_updateCalibration_first s :
  MOTOR_calibration_step s = -2 ->
  MOTOR_wait_for_new_calibration s = 5 ->
  MOTOR_updateCalibration 1 0 s
  = set_MOTOR_calibration_step (pending_step s)
      (set_MOTOR_wait_for_new_calibration 4 s).
Proof.
  intros Hs Hw. unfold MOTOR_updateCalibration, pending_step.
  cbn [Z.eqb Pos.eqb]. rewrite Hw. cbn [Z.eqb negb].
  cbn -[Z.geb Z.ltb]. rewrite Hs. cbn -[Z.geb Z.ltb].
  rewrite Z.geb_leb, Z.leb_antisym.
  destruct (MOTOR_ManuCalibration (config s) <? 0); reflexivity.
Qed.

(** A later call while the retry wait has not elapsed only counts down. *)
Lemma MOTOR_updateCalibration_waiting cal_type percent s :
  cal_type <> 0 ->
  1 <= MOTOR_wait_for_new_calibration s <= 255 ->
  MOTOR_calibration_step s <> -2 ->
  MOTOR_updateCalibration cal_type percent s
  = set_MOTOR_wait_for_new_calibration (MOTOR_wait_for_new_calibration s - 1) s.
Proof.
  intros Hc Hw Hs. unfold MOTOR_updateCalibration.
  apply Z.eqb_neq in Hc. rewrite Hc.
  replace (MOTOR_wait_for_new_calibration s =? 0) with false
    by (symmetry; apply Z.eqb_neq; lia).
  apply Z.eqb_neq in Hs.
  cbn -[Int.uint8 Z.eqb]. rewrite Hs.
  unfold Int.uint8. rewrite Z.mod_small by lia. reflexivity.
Qed.

(** The call that finds the retry wait elapsed and a leg pending launches
    the first leg. *)
Lemma MOTOR_updateCalibration_go cal_type percent s :
  cal_type <> 0 ->
  MOTOR_wait_for_new_calibration s = 0 ->
  MOTOR_calibration_step s = 1 \/ MOTOR_calibration_step s = 2 ->
  MOTOR_updateCalibration cal_type percent s
  = if (MOTOR_ManuCalibration (config s) =? -1) && (percent >? 50) then
      MOTOR_Control close
        (set_MOTOR_PosStop (Int.int16 (- MOTOR_MAX_IMPULSES))
           (set_MOTOR_calibration_step (MOTOR_calibration_step s + 2) s))
    else
      MOTOR_Control open
        (set_MOTOR_PosStop (Int.int16 MOTOR_MAX_IMPULSES)
           (set_MOTOR_calibration_step (MOTOR_calibration_step s + 2) s)).
Proof.
  intros Hc Hw Hs. unfold MOTOR_updateCalibration.
  apply Z.eqb_neq in Hc. rewrite Hc, Hw. cbn [Z.eqb negb].
  destruct Hs as [Hs | Hs]; rewrite Hs;
    cbn -[MOTOR_Control Int.int16 Z.gtb Z.eqb];
    change (1 =? 1) with true; change (2 =? 1) with false;
    change (2 =? 2) with true; cbn [orb];
    destruct ((MOTOR_ManuCalibration (config s) =? -1) && (percent >? 50));
    rewrite MOTOR_Control_step; cbn -[MOTOR_Control Int.int16]; reflexivity.
Qed.

(** Once a leg runs, the periodic call changes nothing. *)
Lemma MOTOR_updateCalibration_running cal_type percent s :
  cal_type <> 0 ->
  MOTOR_wait_for_new_calibration s = 0 ->
  MOTOR_calibration_step s = 3 \/ MOTOR_calibration_step s = 4 ->
  MOTOR_updateCalibration cal_type percent s = s.
Proof.
  intros Hc Hw Hs. unfold MOTOR_updateCalibration.
  apply Z.eqb_neq in Hc. rewrite Hc, Hw. cbn [Z.eqb negb].
  destruct Hs as [Hs | Hs]; rewrite Hs;
    cbn [Z.eqb Pos.eqb orb]; rewrite Hs; reflexivity.
Qed.

Lemma pending_step_cases s : pending_step s = 1 \/ pending_step s = 2.
Proof.
  unfold pending_step.
  destruct (MOTOR_ManuCalibration (config s) <? 0); [left | right]; reflexivity.
Qed.

(** The state during the retry wait, [k] calls after the first one. *)
Lemma calibration_ticks_waiting s k :
  MOTOR_calibration_step s = -2 ->
  MOTOR_wait_for_new_calibration s = 5 ->
  (1 <= k <= 5)%nat ->
  calibration_ticks k s
  = set_MOTOR_calibration_step (pending_step s)
      (set_MOTOR_wait_for_new_calibration (5 - Z.of_nat k) s).
Proof.
  intros Hs Hw Hk.
  assert (Hp : pending_step s <> -2)
    by (destruct (pending_step_cases s) as [E | E]; rewrite E; discriminate).
  induction k as [| k IH]; [lia |].
  destruct (Nat.eq_dec k 0) as [-> | Hk0].
  - apply MOTOR_updateCalibration_first; assumption.
  - rewrite calibration_ticks_S, IH by lia.
    rewrite MOTOR_updateCalibration_waiting;
      cbn [MOTOR_wait_for_new_calibration MOTOR_calibration_step
           set_MOTOR_calibration_step set_MOTOR_wait_for_new_calibration];
      try lia; try assumption.
    replace (5 - Z.of_nat (S k)) with (5 - Z.of_nat k - 1) by lia.
    reflexivity.
Qed.

(** The state from the sixth call on. *)
Lemma calibration_ticks_launched s n :
  MOTOR_calibration_step s = -2 ->
  MOTOR_wait_for_new_calibration s = 5 ->
  (6 <= n)%nat ->
  calibration_ticks n s
  = MOTOR_Control open
      (set_MOTOR_PosStop (Int.int16 MOTOR_MAX_IMPULSES)
         (set_MOTOR_calibration_step (pending_step s + 2)
            (set_MOTOR_wait_for_new_calibration 0 s))).
Proof.
  intros Hs Hw Hn.
  induction n as [| n IH]; [lia |].
  rewrite calibration_ticks_S.
  destruct (Nat.eq_dec n 5) as [-> | Hn5].
  - rewrite calibration_ticks_waiting by (assumption || lia).
    rewrite MOTOR_updateCalibration_go;
      [| discriminate | reflexivity | apply pending_step_cases].
    rewrite andb_false_r. reflexivity.
  - rewrite IH by lia.
    apply MOTOR_updateCalibration_running; [discriminate | apply MOTOR_Control_vars |].
    rewrite MOTOR_Control_step. cbn [MOTOR_calibration_step set_MOTOR_PosStop
      set_MOTOR_calibration_step].
    destruct (pending_step_cases s) as [E | E]; rewrite E; [left | right]; reflexivity.
Qed.

(** C7 (amended): starting from the fully-uninitialised state
    (CalibrationStep == -2, retry-wait counter at 5), the first five
    UpdateCalibration(1, 0) calls only let the retry-wait counter elapse, with
    CalibrationStep pending at 1 when no manual calibration value is set
    (ManuCalibration < 0; at 2 otherwise) and no motor command; from the
    sixth call on CalibrationStep has progressed to 3 (to 4 otherwise) and a
    motor Open command with StopPosition = +MOTOR_MAX_IMPULSES has been
    issued.  The call that launches a pending leg issues a full Close, with
    StopPosition = -MOTOR_MAX_IMPULSES, exactly when ManuCalibration == -1 and
    percent > 50, and a full Open otherwise. *)
Theorem MOTOR_updateCalibration_first_leg s :
  MOTOR_calibration_step s = -2 ->
  MOTOR_wait_for_new_calibration s = 5 ->
  Int.in_int16 MOTOR_MAX_IMPULSES ->
  (forall k, (1 <= k <= 5)%nat ->
     MOTOR_wait_for_new_calibration (calibration_ticks k s) = 5 - Z.of_nat k /\
     MOTOR_calibration_step (calibration_ticks k s) = pending_step s /\
     MOTOR_Dir (calibration_ticks k s) = MOTOR_Dir s /\
     MOTOR_PosStop (calibration_ticks k s) = MOTOR_PosStop s /\
     io (calibration_ticks k s) = io s) /\
  (forall n, (6 <= n)%nat ->
     MOTOR_calibration_step (calibration_ticks n s) = pending_step s + 2 /\
     MOTOR_Dir (calibration_ticks n s) = open /\
     MOTOR_PosStop (calibration_ticks n s) = MOTOR_MAX_IMPULSES /\
     MOTOR_wait_for_new_calibration (calibration_ticks n s) = 0) /\
  (forall cal_type percent t,
     cal_type <> 0 ->
     MOTOR_wait_for_new_calibration t = 0 ->
     MOTOR_calibration_step t = 1 \/ MOTOR_calibration_step t = 2 ->
     let t' := MOTOR_updateCalibration cal_type percent t in
     MOTOR_calibration_step t' = MOTOR_calibration_step t + 2 /\
     (MOTOR_ManuCalibration (config t) = -1 /\ 50 < percent ->
      MOTOR_Dir t' = close /\
      MOTOR_PosStop t' = Int.int16 (- MOTOR_MAX_IMPULSES)) /\
     (~ (MOTOR_ManuCalibration (config t) = -1 /\ 50 < percent) ->
      MOTOR_Dir t' = open /\
      MOTOR_PosStop t' = Int.int16 MOTOR_MAX_IMPULSES)).
Proof.
  intros Hs Hw Hmax. split; [| split].
  - intros k Hk. rewrite calibration_ticks_waiting by assumption.
    cbn. repeat split.
  - intros n Hn. rewrite calibration_ticks_launched by assumption.
    pose proof (MOTOR_Control_vars open
      (set_MOTOR_PosStop (Int.int16 MOTOR_MAX_IMPULSES)
         (set_MOTOR_calibration_step (pending_step s + 2)
            (set_MOTOR_wait_for_new_calibration 0 s)))) as V.
    cbv zeta in V. destruct V as (_ & _ & Vs & Vc & Vw & _).
    rewrite Vs, Vc, Vw, MOTOR_Control_Dir.
    cbn [MOTOR_PosStop MOTOR_calibration_step MOTOR_wait_for_new_calibration
         set_MOTOR_PosStop set_MOTOR_calibration_step
         set_MOTOR_wait_for_new_calibration].
    rewrite int16_id by exact Hmax. repeat split.
  - intros cal_type percent t Hc Ht Hstep t'. subst t'.
    rewrite MOTOR_updateCalibration_go by assumption.
    destruct ((MOTOR_ManuCalibration (config t) =? -1) && (percent >? 50)) eqn:E.
    + apply andb_true_iff in E. destruct E as [E1 E2].
      apply Z.eqb_eq in E1. apply Z.gtb_lt in E2.
      rewrite MOTOR_Control_step, MOTOR_Control_Dir.
      split; [reflexivity |]. split.
      * intros _. split; [reflexivity | apply MOTOR_Control_vars].
      * intros N. exfalso. apply N. split; assumption.
    + rewrite MOTOR_Control_step, MOTOR_Control_Dir.
      split; [reflexivity |]. split.
      * intros [E1 E2]. exfalso.
        apply andb_false_iff in E. destruct E as [E | E].
        -- apply Z.eqb_neq in E. contradiction.
        -- rewrite Z.gtb_ltb in E. apply Z.ltb_ge in E. lia.
      * intros _. split; [reflexivity | apply MOTOR_Control_vars].
Qed.

(** *** Further properties: MOTOR_Goto and MOTOR_GetPosPercent *)

Lemma set_bits_testbit r n : 0 <= n -> Z.testbit (Avr.set_bits r (Avr.bit n)) n = true.
Proof.
  intros Hn. unfold Avr.set_bits, Avr.bit.
  rewrite Z.lor_spec, Z.shiftl_spec, Z.sub_diag by assumption.
  apply orb_true_r.
Qed.

Lemma clear_bits_idem r m :
  Avr.clear_bits (Avr.clear_bits r m) m = Avr.clear_bits r m.
Proof.
  unfold Avr.clear_bits. rewrite <- Z.land_assoc, Z.land_diag. reflexivity.
Qed.

Lemma MOTOR_Control_PosAct d s :
  MOTOR_PosAct (MOTOR_Control d s) = MOTOR_PosAct s.
Proof. apply MOTOR_Control_vars. Qed.

Lemma MOTOR_Control_PosMax d s :
  MOTOR_PosMax (MOTOR_Control d s) = MOTOR_PosMax s.
Proof. apply MOTOR_Control_vars. Qed.

Lemma MOTOR_Control_PosStop d s :
  MOTOR_PosStop (MOTOR_Control d s) = MOTOR_PosStop s.
Proof. apply MOTOR_Control_vars. Qed.

Lemma MOTOR_Control_config d s :
  config (MOTOR_Control d s) = config s.
Proof. apply MOTOR_Control_vars. Qed.

Lemma MOTOR_Control_eeprom d s :
  eeprom_saved (MOTOR_Control d s) = eeprom_saved s.
Proof.
  unfold MOTOR_Control.
  destruct d; try destruct (motor_dir_eqb (MOTOR_Dir s) _); reflexivity.
Qed.

Create Rewrite HintDb motor_frame.
Hint Rewrite MOTOR_Control_Dir MOTOR_Control_PosAct MOTOR_Control_PosMax
  MOTOR_Control_PosStop MOTOR_Control_step MOTOR_Control_config
  MOTOR_Control_eeprom : motor_frame.

Lemma motor_dir_eqb_neq a b : a <> b -> motor_dir_eqb a b = false.
Proof.
  intros H. destruct (motor_dir_eqb a b) eqn:E; [| reflexivity].
  apply motor_dir_eqb_eq in E. contradiction.
Qed.

(** X1: a Goto while the motor is already moving (CalibrationStep == 0) only
    replaces the stop position: it returns true and leaves the direction, the
    timers and every register as they are. *)
Theorem MOTOR_Goto_while_moving percent s :
  MOTOR_calibration_step s = 0 ->
  MOTOR_Dir s <> stop ->
  MOTOR_Goto percent s
  = (true, set_MOTOR_PosStop (goto_stop_position percent s) s).
Proof.
  intros Hc Hd. unfold MOTOR_Goto. rewrite Hc.
  cbn -[goto_stop_position MOTOR_Control].
  rewrite (motor_dir_eqb_neq _ _ Hd). reflexivity.
Qed.

(** X2: a Goto on an idle, calibrated motor starts it towards the new stop
    position: the direction is the sign of (stop position - actual
    position), so the motor opens below the target, closes above it and stays
    stopped on it; the positions themselves are not touched. *)
Theorem MOTOR_Goto_direction percent s :
  MOTOR_calibration_step s = 0 ->
  MOTOR_Dir s = stop ->
  let s' := snd (MOTOR_Goto percent s) in
  fst (MOTOR_Goto percent s) = true /\
  dir_val (MOTOR_Dir s') = Z.sgn (goto_stop_position percent s - MOTOR_PosAct s) /\
  MOTOR_PosStop s' = goto_stop_position percent s /\
  MOTOR_PosAct s' = MOTOR_PosAct s /\
  MOTOR_PosMax s' = MOTOR_PosMax s.
Proof.
  intros Hc Hd. unfold MOTOR_Goto. rewrite Hc.
  cbn -[goto_stop_position MOTOR_Control]. rewrite Hd.
  cbn -[goto_stop_position MOTOR_Control].
  set (target := goto_stop_position percent s).
  destruct (MOTOR_PosAct s >? target) eqn:Egt.
  - apply Z.gtb_lt in Egt. rewrite Z.sgn_neg by lia.
    autorewrite with motor_frame. repeat split.
  - rewrite Z.gtb_ltb in Egt. apply Z.ltb_ge in Egt.
    destruct (MOTOR_PosAct s <? target) eqn:Elt.
    + apply Z.ltb_lt in Elt. rewrite Z.sgn_pos by lia.
      autorewrite with motor_frame. repeat split.
    + apply Z.ltb_ge in Elt. rewrite Z.sgn_null by lia.
      cbn. rewrite Hd. repeat split.
Qed.

(** X3: for percent in [1,99] the interpolated stop position keeps the
    protection margin from both ends of the travel: it lies between
    protection and MaxPosition - protection, when the margin is a byte and
    2 * protection <= MaxPosition <= 2 * protection + 1323. *)
Theorem goto_stop_position_margins percent s :
  Int.in_uint8 (motor_protection (config s)) ->
  0 <= MOTOR_PosMax s - 2 * motor_protection (config s) <= 1323 ->
  1 <= percent <= 99 ->
  motor_protection (config s) <= goto_stop_position percent s
  <= MOTOR_PosMax s - motor_protection (config s).
Proof.
  intros Hp Hspan Hpc.
  rewrite (goto_stop_position_between s Hp Hspan percent Hpc).
  remember (MOTOR_PosMax s - 2 * motor_protection (config s)) as span eqn:Espan.
  assert (Hx : 0 <= span / 4 /\ 4 * (span / 4) <= span) by lia_div.
  set (x := span / 4) in *. clearbody x.
  assert (Hy : 0 <= percent * x <= 99 * x) by nia.
  set (y := percent * x) in *. clearbody y.
  assert (Hq : 0 <= y / 25 /\ 25 * (y / 25) <= y) by lia_div.
  lia.
Qed.

(** The reading of a calibrated motor as a plain quotient, when nothing
    wraps. *)
Lemma MOTOR_GetPosPercent_quotient s :
  10 < MOTOR_PosMax s ->
  MOTOR_calibration_step s = 0 ->
  0 <= MOTOR_PosAct s <= 3276 ->
  MOTOR_PosAct s * 10 / (MOTOR_PosMax s / 10) <= 255 ->
  MOTOR_GetPosPercent s = MOTOR_PosAct s * 10 / (MOTOR_PosMax s / 10).
Proof.
  intros Hmax Hstep Hact Hq. unfold MOTOR_GetPosPercent.
  replace (MOTOR_PosMax s >? 10) with true
    by (symmetry; rewrite Z.gtb_ltb; apply Z.ltb_lt; exact Hmax).
  rewrite Hstep. cbn [andb Z.eqb].
  rewrite int16_id by (unfold Int.in_int16; lia).
  rewrite (Z.quot_div_nonneg (MOTOR_PosMax s) 10) by lia.
  assert (Hd : 1 <= MOTOR_PosMax s / 10) by (apply Z.div_le_lower_bound; lia).
  rewrite Z.quot_div_nonneg by lia.
  unfold Int.uint8. apply Z.mod_small. split; [apply Z.div_pos; lia | lia].
Qed.

(** X4: a reading other than 255 is only given by a calibrated motor. *)
Theorem MOTOR_GetPosPercent_known s :
  MOTOR_GetPosPercent s <> 255 -> MOTOR_IsCalibrated s = true.
Proof.
  unfold MOTOR_GetPosPercent, MOTOR_IsCalibrated. intros H.
  destruct (MOTOR_PosMax s >? 10) eqn:E1;
    destruct (MOTOR_calibration_step s =? 0) eqn:E2;
    cbn [andb] in *; try congruence.
  rewrite Z.gtb_ltb in E1. apply Z.ltb_lt in E1.
  replace (MOTOR_PosMax s =? 0) with false
    by (symmetry; apply Z.eqb_neq; lia).
  reflexivity.
Qed.

(** X5: for a calibrated travel the reading does not decrease when the
    position grows, for positions from 0 up to 10 * (MaxPosition / 10) and
    not above 3276. *)
Theorem MOTOR_GetPosPercent_monotone a1 a2 s :
  10 < MOTOR_PosMax s ->
  MOTOR_calibration_step s = 0 ->
  0 <= a1 -> a1 <= a2 ->
  a2 <= 10 * (MOTOR_PosMax s / 10) -> a2 <= 3276 ->
  MOTOR_GetPosPercent (set_MOTOR_PosAct a1 s)
  <= MOTOR_GetPosPercent (set_MOTOR_PosAct a2 s).
Proof.
  intros Hmax Hstep H1 H12 H2 H2'.
  assert (Hd : 1 <= MOTOR_PosMax s / 10) by (apply Z.div_le_lower_bound; lia).
  assert (Hb : forall a, 0 <= a <= a2 -> a * 10 / (MOTOR_PosMax s / 10) <= 255).
  { intros a Ha. apply Z.le_trans with 100; [| lia].
    apply Z.div_le_upper_bound; lia. }
  rewrite !MOTOR_GetPosPercent_quotient; cbn [MOTOR_PosMax MOTOR_PosAct
    MOTOR_calibration_step set_MOTOR_PosAct]; try assumption; try lia;
    try (apply Hb; lia).
  apply Z.div_le_mono; lia.
Qed.

(** X6: at the ends of a calibrated travel of 100 to 3276 pulses the reading
    is 0 at position 0 and between 100 and 109 at position MaxPosition; it is
    exactly 100 there when MaxPosition is a multiple of 10. *)
Theorem MOTOR_GetPosPercent_end_stops s :
  MOTOR_calibration_step s = 0 ->
  100 <= MOTOR_PosMax s <= 3276 ->
  (MOTOR_PosAct s = 0 -> MOTOR_GetPosPercent s = 0) /\
  (MOTOR_PosAct s = MOTOR_PosMax s -> 100 <= MOTOR_GetPosPercent s <= 109) /\
  (MOTOR_PosAct s = MOTOR_PosMax s -> MOTOR_PosMax s mod 10 = 0 ->
   MOTOR_GetPosPercent s = 100).
Proof.
  intros Hstep Hmax.
  assert (Hd : 10 <= MOTOR_PosMax s / 10) by (apply Z.div_le_lower_bound; lia).
  assert (Hm : MOTOR_PosMax s = 10 * (MOTOR_PosMax s / 10) + MOTOR_PosMax s mod 10
               /\ 0 <= MOTOR_PosMax s mod 10 < 10)
    by (split; [apply Z.div_mod; lia | apply Z.mod_pos_bound; lia]).
  set (q := MOTOR_PosMax s / 10) in *.
  set (m := MOTOR_PosMax s mod 10) in *.
  assert (Hfull : 100 <= MOTOR_PosMax s * 10 / q <= 109).
  { split.
    - apply Z.div_le_lower_bound; lia.
    - assert (MOTOR_PosMax s * 10 / q < 110); [| lia].
      apply Z.div_lt_upper_bound; lia. }
  split; [| split].
  - intros Ha. rewrite MOTOR_GetPosPercent_quotient; rewrite ?Ha; fold q;
      try lia; cbn; lia.
  - intros Ha. rewrite MOTOR_GetPosPercent_quotient; rewrite ?Ha; fold q; lia.
  - intros Ha Hz. rewrite MOTOR_GetPosPercent_quotient; rewrite ?Ha; fold q;
      try lia.
    replace (MOTOR_PosMax s * 10) with (100 * q) by lia.
    apply Z.div_mul. lia.
Qed.

(** *** Further properties: MOTOR_Control and MOTOR_updateCalibration *)

(** X7: switching the motor on in a new direction arms everything at once:
    the photo eye and both interrupts are enabled, the debounce counter is
    set to the noise-protection window, the timeout and its reload value are
    256 times the configured run timeout (a byte), the bridge is set for the
    direction and the PWM duty is the configured speed of that direction. *)
Theorem MOTOR_Control_start direction s :
  direction <> stop ->
  MOTOR_Dir s <> direction ->
  Int.in_uint8 (motor_run_timeout (config s)) ->
  let s' := MOTOR_Control direction s in
  MOTOR_Dir s' = direction /\
  motor_timer s' = 256 * motor_run_timeout (config s) /\
  motor_max_time_for_impulse s' = 256 * motor_run_timeout (config s) /\
  eye_timer s' = EYE_TIMER_NOISE_PROTECTION /\
  TIMSK0 (io s') = Avr.bit Avr.TOIE0 /\
  Z.testbit (PCMSK0 (io s')) Avr.PCINT4 = true /\
  Z.testbit (PORTE (io s')) Avr.PE3 = true /\
  H_BRIDGE (io s') = match direction with close => hb_close | _ => hb_open end /\
  OCR0A (io s') = match direction with
                  | close => motor_speed_close (config s)
                  | _ => motor_speed_open (config s)
                  end.
Proof.
  intros Hd Hs Ht.
  assert (E : Int.uint16 (Z.shiftl (motor_run_timeout (config s)) 8)
              = 256 * motor_run_timeout (config s)).
  { unfold Int.uint16, Int.in_uint8 in *. rewrite Z.shiftl_mul_pow2 by lia.
    change (2 ^ 8) with 256. rewrite Z.mod_small; lia. }
  unfold MOTOR_Control.
  destruct direction; [congruence | |];
    rewrite (motor_dir_eqb_neq _ _ Hs);
    cbn -[Int.uint16 Z.shiftl Avr.set_bits Avr.bit Z.testbit Z.lor];
    rewrite E; repeat split; apply set_bits_testbit; discriminate.
Qed.

(** X8: the reset of the calibration (cal_type 0) does not depend on percent
    and is idempotent: a second reset changes nothing. *)
Theorem MOTOR_updateCalibration_reset_idempotent p q s :
  MOTOR_updateCalibration 0 p s = MOTOR_updateCalibration 0 q s /\
  MOTOR_updateCalibration 0 p (MOTOR_updateCalibration 0 q s)
  = MOTOR_updateCalibration 0 q s.
Proof.
  split; [reflexivity |].
  assert (E : forall r u,
             MOTOR_updateCalibration 0 r u
             = set_MOTOR_wait_for_new_calibration 5
                 (set_MOTOR_calibration_step (-2)
                    (set_MOTOR_PosMax 0
                       (set_MOTOR_PosAct 0 (MOTOR_Control stop u)))))
    by reflexivity.
  rewrite !E.
  destruct s as [a m t d c g x y w e l cf [r1 r2 r3 r4 r5 h] ce tk sv rx].
  cbv -[Avr.clear_bits Avr.bit Z.lor].
  rewrite !clear_bits_idem. reflexivity.
Qed.

(** X9: after the reset (cal_type 0) every part of the API reports the motor
    as not calibrated: IsCalibrated is false, the position reads 255 and a
    Goto is refused without any effect. *)
Theorem MOTOR_updateCalibration_reset_reports percent p s :
  let s' := MOTOR_updateCalibration 0 percent s in
  MOTOR_IsCalibrated s' = false /\
  MOTOR_GetPosPercent s' = 255 /\
  MOTOR_Goto p s' = (false, s').
Proof. repeat split. Qed.

(** X10: in the uninitialised state (CalibrationStep == -2) cal_type 3 sets
    the manual calibration value to -1, saves both of its bytes (low, then
    high) and leaves step 1 pending; cal_type 2 sets the value to 0, saves
    nothing and leaves step 2 pending.  Neither moves the motor. *)
Theorem MOTOR_updateCalibration_mode percent s :
  MOTOR_calibration_step s = -2 ->
  (let s' := MOTOR_updateCalibration 3 percent s in
   MOTOR_ManuCalibration (config s') = -1 /\
   MOTOR_calibration_step s' = 1 /\
   eeprom_saved s'
   = MOTOR_ManuCalibration_H :: MOTOR_ManuCalibration_L :: eeprom_saved s /\
   MOTOR_Dir s' = MOTOR_Dir s /\ io s' = io s) /\
  (let s' := MOTOR_updateCalibration 2 percent s in
   MOTOR_ManuCalibration (config s') = 0 /\
   MOTOR_calibration_step s' = 2 /\
   eeprom_saved s' = eeprom_saved s /\
   MOTOR_Dir s' = MOTOR_Dir s /\ io s' = io s).
Proof.
  intros Hs. unfold MOTOR_updateCalibration. cbn [Z.eqb Pos.eqb].
  rewrite Hs. cbn [Z.eqb orb].
  destruct (MOTOR_wait_for_new_calibration s =? 0);
    cbn -[Int.uint8]; rewrite Hs; cbn -[Int.uint8]; repeat split.
Qed.

(** The step after the first half of [MOTOR_updateCalibration] is -2 only if
    it was before. *)
Lemma MOTOR_updateCalibration_parts cal_type percent s :
  cal_type <> 0 ->
  MOTOR_calibration_step s <> -2 ->
  exists s1,
    MOTOR_updateCalibration cal_type percent s = s1 /\
    config s1 = config s /\
    eeprom_saved s1 = eeprom_saved s /\
    (MOTOR_calibration_step s1 = MOTOR_calibration_step s \/
     (MOTOR_calibration_step s = 1 /\ MOTOR_calibration_step s1 = 3) \/
     (MOTOR_calibration_step s = 2 /\ MOTOR_calibration_step s1 = 4)).
Proof.
  intros Hc Hs. eexists. split; [reflexivity |].
  unfold MOTOR_updateCalibration.
  apply Z.eqb_neq in Hc. rewrite Hc.
  destruct (MOTOR_wait_for_new_calibration s =? 0); cbn [negb].
  - destruct (MOTOR_calibration_step s =? 1) eqn:E1; cbn [orb].
    + apply Z.eqb_eq in E1. rewrite E1. cbn -[MOTOR_Control Int.int16 Z.gtb Z.eqb].
      destruct ((MOTOR_ManuCalibration (config s) =? -1) && (percent >? 50));
        autorewrite with motor_frame; cbn -[MOTOR_Control Int.int16];
        autorewrite with motor_frame; cbn; intuition.
    + destruct (MOTOR_calibration_step s =? 2) eqn:E2.
      * apply Z.eqb_eq in E2. rewrite E2. cbn -[MOTOR_Control Int.int16 Z.gtb Z.eqb].
        destruct ((MOTOR_ManuCalibration (config s) =? -1) && (percent >? 50));
          autorewrite with motor_frame; cbn -[MOTOR_Control Int.int16];
          autorewrite with motor_frame; cbn; intuition.
      * apply Z.eqb_neq in Hs. rewrite Hs. intuition.
  - cbn -[Int.uint8]. apply Z.eqb_neq in Hs. rewrite Hs. cbn. intuition.
Qed.

(** X11: once the calibration has left the uninitialised state, no call
    with a cal_type other than 0 changes the configuration or writes to the
    EEPROM; cal_type 2 and 3 switch the mode from step -2 only. *)
Theorem MOTOR_updateCalibration_keeps_config cal_type percent s :
  cal_type <> 0 ->
  MOTOR_calibration_step s <> -2 ->
  config (MOTOR_updateCalibration cal_type percent s) = config s /\
  eeprom_saved (MOTOR_updateCalibration cal_type percent s) = eeprom_saved s.
Proof.
  intros Hc Hs.
  destruct (MOTOR_updateCalibration_parts cal_type percent s Hc Hs)
    as (s1 & E & H1 & H2 & _).
  rewrite E. split; assumption.
Qed.

(** *** Further properties: the deferred stop handler *)

(** Case analysis on a condition that has no condition inside. *)
Ltac case_atom :=
  match goal with
  | |- context [if ?b then _ else _] =>
      lazymatch b with
      | context [if _ then _ else _] => fail
      | _ => destruct b eqn:?
      end
  end.

Ltac stop_cbn :=
  cbn -[Int.int16 Avr.clear_bits Avr.set_bits Avr.bit Z.lor Z.land
        Z.eqb Z.leb Z.ltb Z.geb Z.gtb Z.add Z.sub].

(** The calibration step the handler leaves. *)
Lemma MOTOR_timer_stop_step s :
  MOTOR_calibration_step (MOTOR_timer_stop s)
  = if eye_timer s =? 0xff then
      if MOTOR_calibration_step s =? 0 then 0 else -1
    else
      match MOTOR_Dir s with
      | stop => MOTOR_calibration_step s
      | _ => if MOTOR_calibration_step s =? 3 then 4
             else if MOTOR_calibration_step s =? 4 then 0
             else MOTOR_calibration_step s
      end.
Proof.
  unfold MOTOR_timer_stop. cbv zeta.
  lazymatch goal with
  | |- context [if ?c then set_CTL_error _ ?t else set_CTL_error _ ?t] =>
      destruct c
  end; stop_cbn;
  (destruct (eye_timer s =? 0xff); stop_cbn;
   [ destruct (MOTOR_calibration_step s =? 0) eqn:E; stop_cbn;
     [apply Z.eqb_eq in E; exact E | reflexivity]
   | destruct (MOTOR_Dir s); stop_cbn; [reflexivity | | ];
     repeat (case_atom; stop_cbn); reflexivity ]).
Qed.

Ltac timer_stop_cases s :=
  unfold MOTOR_timer_stop; cbv zeta;
  lazymatch goal with
  | |- context [if ?c then set_CTL_error _ ?t else set_CTL_error _ ?t] =>
      destruct c
  end; stop_cbn;
  (destruct (eye_timer s =? 0xff); stop_cbn;
   [ repeat (case_atom; stop_cbn); reflexivity
   | destruct (MOTOR_Dir s); stop_cbn; [reflexivity | | ];
     repeat (case_atom; stop_cbn); reflexivity ]).

(** The direction the handler leaves. *)
Lemma MOTOR_timer_stop_Dir s :
  MOTOR_Dir (MOTOR_timer_stop s)
  = if eye_timer s =? 0xff then stop
    else
      match MOTOR_Dir s with
      | stop => stop
      | open => if MOTOR_calibration_step s =? 3 then close else stop
      | close => if MOTOR_calibration_step s =? 3 then open else stop
      end.
Proof. timer_stop_cases s. Qed.

(** The positions the handler leaves. *)
Lemma MOTOR_timer_stop_PosAct s :
  MOTOR_PosAct (MOTOR_timer_stop s)
  = if eye_timer s =? 0xff then MOTOR_PosAct s
    else
      match MOTOR_Dir s with
      | stop => MOTOR_PosAct s
      | open => if MOTOR_ManuCalibration (config s) <=? 0 then MOTOR_PosAct s
                else MOTOR_ManuCalibration (config s)
      | close => 0
      end.
Proof. timer_stop_cases s. Qed.

Lemma MOTOR_timer_stop_PosMax s :
  MOTOR_PosMax (MOTOR_timer_stop s)
  = if eye_timer s =? 0xff then MOTOR_PosMax s
    else
      match MOTOR_Dir s with
      | stop => MOTOR_PosMax s
      | open => if MOTOR_ManuCalibration (config s) <=? 0 then MOTOR_PosAct s
                else MOTOR_ManuCalibration (config s)
      | close => if MOTOR_ManuCalibration (config s) <? 0
                 then Int.int16 (MOTOR_PosMax s - MOTOR_PosAct s)
                 else MOTOR_PosMax s
      end.
Proof. timer_stop_cases s. Qed.

Lemma MOTOR_timer_stop_PosStop s :
  MOTOR_PosStop (MOTOR_timer_stop s)
  = if eye_timer s =? 0xff then MOTOR_PosStop s
    else
      match MOTOR_Dir s with
      | stop => MOTOR_PosStop s
      | open => if MOTOR_calibration_step s =? 3
                then Int.int16 (MOTOR_PosAct s - MOTOR_MAX_IMPULSES)
                else MOTOR_PosStop s
      | close => if MOTOR_calibration_step s =? 3
                 then Int.int16 (MOTOR_PosAct s + MOTOR_MAX_IMPULSES)
                 else MOTOR_PosStop s
      end.
Proof. timer_stop_cases s. Qed.

Lemma MOTOR_timer_stop_H_BRIDGE s :
  H_BRIDGE (io (MOTOR_timer_stop s))
  = if eye_timer s =? 0xff then hb_stop
    else
      match MOTOR_Dir s with
      | stop => hb_stop
      | open => if MOTOR_calibration_step s =? 3 then hb_close else hb_stop
      | close => if MOTOR_calibration_step s =? 3 then hb_open else hb_stop
      end.
Proof. timer_stop_cases s. Qed.

(** The configuration and the EEPROM writes the handler leaves: only the
    first measurement of a travel (value 0) that reaches the minimum is
    stored. *)
Lemma MOTOR_timer_stop_config s :
  config (MOTOR_timer_stop s)
  = if eye_timer s =? 0xff then config s
    else
      match MOTOR_Dir s with
      | open =>
          if MOTOR_ManuCalibration (config s) <=? 0 then
            if (MOTOR_ManuCalibration (config s) =? 0)
               && (MOTOR_PosAct s >=? MOTOR_MIN_IMPULSES)
            then config (set_MOTOR_ManuCalibration (MOTOR_PosAct s) s)
            else config s
          else config s
      | _ => config s
      end.
Proof. timer_stop_cases s. Qed.

Lemma MOTOR_timer_stop_eeprom s :
  eeprom_saved (MOTOR_timer_stop s)
  = if eye_timer s =? 0xff then eeprom_saved s
    else
      match MOTOR_Dir s with
      | open =>
          if MOTOR_ManuCalibration (config s) <=? 0 then
            if (MOTOR_ManuCalibration (config s) =? 0)
               && (MOTOR_PosAct s >=? MOTOR_MIN_IMPULSES)
            then MOTOR_ManuCalibration_H :: MOTOR_ManuCalibration_L :: eeprom_saved s
            else eeprom_saved s
          else eeprom_saved s
      | _ => eeprom_saved s
      end.
Proof. timer_stop_cases s. Qed.

Lemma valid_step_iff z : valid_step z = true <-> -2 <= z <= 4.
Proof.
  unfold valid_step. rewrite andb_true_iff, !Z.leb_le. reflexivity.
Qed.

Lemma MOTOR_Goto_step percent s :
  MOTOR_calibration_step (snd (MOTOR_Goto percent s)) = MOTOR_calibration_step s.
Proof.
  unfold MOTOR_Goto.
  destruct (MOTOR_calibration_step s =? 0); [| reflexivity].
  cbn -[goto_stop_position MOTOR_Control].
  repeat case_if; autorewrite with motor_frame; reflexivity.
Qed.

Lemma PCINT0_vect_step pine s :
  MOTOR_calibration_step (PCINT0_vect pine s) = MOTOR_calibration_step s.
Proof.
  unfold PCINT0_vect. repeat case_if; reflexivity.
Qed.

Lemma TIMER0_OVF_vect_step s :
  MOTOR_calibration_step (TIMER0_OVF_vect s) = MOTOR_calibration_step s.
Proof.
  unfold TIMER0_OVF_vect. cbv zeta. repeat case_if; reflexivity.
Qed.

Lemma MOTOR_updateCalibration_from_uninitialised cal_type percent s :
  cal_type <> 0 ->
  MOTOR_calibration_step s = -2 ->
  MOTOR_calibration_step (MOTOR_updateCalibration cal_type percent s) = 1 \/
  MOTOR_calibration_step (MOTOR_updateCalibration cal_type percent s) = 2.
Proof.
  intros Hc Hs. unfold MOTOR_updateCalibration.
  apply Z.eqb_neq in Hc. rewrite Hc, Hs. cbn [Z.eqb orb].
  destruct (MOTOR_wait_for_new_calibration s =? 0);
    cbn -[Int.uint8 Z.geb Z.eqb]; rewrite Hs; cbn -[Int.uint8 Z.geb];
    repeat (case_if; cbn -[Int.uint8 Z.geb]); auto.
Qed.

(** X12: the calibration error (CalibrationStep == -1) is absorbing: no
    periodic or mode-switching call of UpdateCalibration (cal_type other than
    0), no run of the stop handler, no Goto and no interrupt leaves it; Goto is
    refused.  Only the reset with cal_type 0 does. *)
Theorem calibration_error_absorbing cal_type percent pine s :
  MOTOR_calibration_step s = -1 ->
  cal_type <> 0 ->
  MOTOR_calibration_step (MOTOR_updateCalibration cal_type percent s) = -1 /\
  MOTOR_calibration_step (MOTOR_timer_stop s) = -1 /\
  MOTOR_Goto percent s = (false, s) /\
  MOTOR_calibration_step (PCINT0_vect pine s) = -1 /\
  MOTOR_calibration_step (TIMER0_OVF_vect s) = -1.
Proof.
  intros Hs Hc. repeat split.
  - destruct (MOTOR_updateCalibration_parts cal_type percent s Hc)
      as (s1 & E & _ & _ & [H | [[H _] | [H _]]]); rewrite ?E; congruence.
  - rewrite MOTOR_timer_stop_step, Hs.
    destruct (eye_timer s =? 0xff); destruct (MOTOR_Dir s); reflexivity.
  - unfold MOTOR_Goto. rewrite Hs. reflexivity.
  - rewrite PCINT0_vect_step. exact Hs.
  - rewrite TIMER0_OVF_vect_step. exact Hs.
Qed.

(** X13: the calibration step never leaves the range -2 .. 4: every entry
    point of the motor code keeps it there. *)
Theorem calibration_step_valid cal_type percent pine s :
  valid_step (MOTOR_calibration_step s) = true ->
  valid_step (MOTOR_calibration_step (MOTOR_updateCalibration cal_type percent s)) = true /\
  valid_step (MOTOR_calibration_step (MOTOR_timer_stop s)) = true /\
  valid_step (MOTOR_calibration_step (snd (MOTOR_Goto percent s))) = true /\
  valid_step (MOTOR_calibration_step (PCINT0_vect pine s)) = true /\
  valid_step (MOTOR_calibration_step (TIMER0_OVF_vect s)) = true.
Proof.
  intros Hv. rewrite MOTOR_Goto_step, PCINT0_vect_step, TIMER0_OVF_vect_step.
  repeat split; try exact Hv.
  - destruct (Z.eq_dec cal_type 0) as [-> | Hc]; [reflexivity |].
    destruct (Z.eq_dec (MOTOR_calibration_step s) (-2)) as [Hs | Hs].
    + destruct (MOTOR_updateCalibration_from_uninitialised cal_type percent s Hc Hs)
        as [E | E]; rewrite E; reflexivity.
    + destruct (MOTOR_updateCalibration_parts cal_type percent s Hc Hs)
        as (s1 & E & _ & _ & [H | [[_ H] | [_ H]]]); rewrite E, H;
        [exact Hv | reflexivity | reflexivity].
  - rewrite MOTOR_timer_stop_step.
    destruct (eye_timer s =? 0xff); [case_if; reflexivity |].
    destruct (MOTOR_Dir s); [exact Hv | |]; repeat case_if;
      try reflexivity; exact Hv.
Qed.

(** X14: when the motor reaches an end stop in calibration leg 3 (normal
    stop, debounce counter not 0xff), the handler starts the reverse leg at
    once: the step becomes 4, the direction and the bridge are reversed, and
    the stop position is set MOTOR_MAX_IMPULSES beyond the position counted,
    against the old direction. *)
Theorem MOTOR_timer_stop_reverses s :
  eye_timer s <> 0xff ->
  MOTOR_calibration_step s = 3 ->
  MOTOR_Dir s <> stop ->
  let s' := MOTOR_timer_stop s in
  MOTOR_calibration_step s' = 4 /\
  MOTOR_Dir s' = match MOTOR_Dir s with open => close | _ => open end /\
  H_BRIDGE (io s') = match MOTOR_Dir s with open => hb_close | _ => hb_open end /\
  MOTOR_PosStop s'
  = match MOTOR_Dir s with
    | open => Int.int16 (MOTOR_PosAct s - MOTOR_MAX_IMPULSES)
    | _ => Int.int16 (MOTOR_PosAct s + MOTOR_MAX_IMPULSES)
    end.
Proof.
  intros He Hs Hd. apply Z.eqb_neq in He. cbv zeta.
  rewrite MOTOR_timer_stop_step, MOTOR_timer_stop_Dir, MOTOR_timer_stop_H_BRIDGE,
    MOTOR_timer_stop_PosStop, He, Hs.
  destruct (MOTOR_Dir s); [congruence | |]; repeat split.
Qed.

(** X15: the handler declares the calibration done (CalibrationStep == 0)
    exactly when it was done before, or when an end stop is reached in leg 4
    (normal stop of a moving motor). *)
Theorem MOTOR_timer_stop_done s :
  MOTOR_calibration_step (MOTOR_timer_stop s) = 0 <->
  MOTOR_calibration_step s = 0 \/
  (MOTOR_calibration_step s = 4 /\ eye_timer s <> 0xff /\ MOTOR_Dir s <> stop).
Proof.
  rewrite MOTOR_timer_stop_step.
  destruct (eye_timer s =? 0xff) eqn:Ee;
    [apply Z.eqb_eq in Ee | apply Z.eqb_neq in Ee].
  - destruct (MOTOR_calibration_step s =? 0) eqn:E0;
      [apply Z.eqb_eq in E0 | apply Z.eqb_neq in E0];
      split; auto; try discriminate.
    intros [H | (_ & H & _)]; contradiction.
  - destruct (MOTOR_Dir s) eqn:Ed.
    + split; auto. intros [H | (_ & _ & H)]; [exact H | congruence].
    + destruct (MOTOR_calibration_step s =? 3) eqn:E3;
        [apply Z.eqb_eq in E3 | apply Z.eqb_neq in E3].
      * split; [discriminate | intros [H | (H & _)]; lia].
      * destruct (MOTOR_calibration_step s =? 4) eqn:E4;
          [apply Z.eqb_eq in E4 | apply Z.eqb_neq in E4].
        -- split; auto. intros _. right. repeat split; auto; discriminate.
        -- split; auto. intros [H | (H & _)]; [exact H | contradiction].
    + destruct (MOTOR_calibration_step s =? 3) eqn:E3;
        [apply Z.eqb_eq in E3 | apply Z.eqb_neq in E3].
      * split; [discriminate | intros [H | (H & _)]; lia].
      * destruct (MOTOR_calibration_step s =? 4) eqn:E4;
          [apply Z.eqb_eq in E4 | apply Z.eqb_neq in E4].
        -- split; auto. intros _. right. repeat split; auto; discriminate.
        -- split; auto. intros [H | (H & _)]; [exact H | contradiction].
Qed.

(** X16: outside calibration leg 3 the handler always leaves the motor
    stopped: direction Stop and bridge off, whether the stop position was hit
    (debounce counter 0xff), the motor was idle, or an end stop was reached. *)
Theorem MOTOR_timer_stop_motor_off s :
  eye_timer s = 0xff \/ MOTOR_calibration_step s <> 3 \/ MOTOR_Dir s = stop ->
  MOTOR_Dir (MOTOR_timer_stop s) = stop /\
  H_BRIDGE (io (MOTOR_timer_stop s)) = hb_stop.
Proof.
  intros H. rewrite MOTOR_timer_stop_Dir, MOTOR_timer_stop_H_BRIDGE.
  destruct (eye_timer s =? 0xff) eqn:Ee; [split; reflexivity |].
  apply Z.eqb_neq in Ee.
  destruct H as [H | [H | H]]; [contradiction | | rewrite H; split; reflexivity].
  apply Z.eqb_neq in H. rewrite H. destruct (MOTOR_Dir s); split; reflexivity.
Qed.

(** X17: at the open end stop (normal stop while opening) the travel is taken
    from the position: without a fixed manual value (ManuCalibration <= 0)
    MaxPosition becomes the position counted; with one (> 0) position and
    MaxPosition are both forced to it.  Either way the two are equal
    afterwards. *)
Theorem MOTOR_timer_stop_open_end s :
  eye_timer s <> 0xff ->
  MOTOR_Dir s = open ->
  let s' := MOTOR_timer_stop s in
  MOTOR_PosMax s' = MOTOR_PosAct s' /\
  (MOTOR_ManuCalibration (config s) <= 0 -> MOTOR_PosAct s' = MOTOR_PosAct s) /\
  (0 < MOTOR_ManuCalibration (config s) ->
   MOTOR_PosAct s' = MOTOR_ManuCalibration (config s)).
Proof.
  intros He Hd. apply Z.eqb_neq in He. cbv zeta.
  rewrite MOTOR_timer_stop_PosAct, MOTOR_timer_stop_PosMax, He, Hd.
  destruct (MOTOR_ManuCalibration (config s) <=? 0) eqn:E;
    [apply Z.leb_le in E | apply Z.leb_gt in E]; repeat split; intros; lia.
Qed.

(** X18: at the closed end stop (normal stop while closing) the position
    becomes the origin 0; without any manual value (ManuCalibration < 0) the
    travel is corrected by the position counted, MaxPosition - position in 16
    bits, and otherwise it is kept.  The configuration is not written. *)
Theorem MOTOR_timer_stop_close_end s :
  eye_timer s <> 0xff ->
  MOTOR_Dir s = close ->
  let s' := MOTOR_timer_stop s in
  MOTOR_PosAct s' = 0 /\
  (MOTOR_ManuCalibration (config s) < 0 ->
   MOTOR_PosMax s' = Int.int16 (MOTOR_PosMax s - MOTOR_PosAct s)) /\
  (0 <= MOTOR_ManuCalibration (config s) -> MOTOR_PosMax s' = MOTOR_PosMax s) /\
  config s' = config s /\
  eeprom_saved s' = eeprom_saved s.
Proof.
  intros He Hd. apply Z.eqb_neq in He. cbv zeta.
  rewrite MOTOR_timer_stop_PosAct, MOTOR_timer_stop_PosMax,
    MOTOR_timer_stop_config, MOTOR_timer_stop_eeprom, He, Hd.
  destruct (MOTOR_ManuCalibration (config s) <? 0) eqn:E;
    [apply Z.ltb_lt in E | apply Z.ltb_ge in E];
    repeat split; intros; try assumption; try reflexivity; lia.
Qed.

(** X19: the handler stores a manual calibration value exactly when an
    opening run ends at the end stop with the value still 0 and at least
    MOTOR_MIN_IMPULSES counted: the value becomes the position counted and
    both bytes are saved (low, then high).  A shorter measurement, a value
    other than 0, a closing run, an idle motor or a stop at the stop position
    leaves the configuration alone and writes nothing. *)
Theorem MOTOR_timer_stop_first_measurement s :
  let s' := MOTOR_timer_stop s in
  (eye_timer s <> 0xff -> MOTOR_Dir s = open ->
   MOTOR_ManuCalibration (config s) = 0 ->
   MOTOR_MIN_IMPULSES <= MOTOR_PosAct s ->
   MOTOR_ManuCalibration (config s') = MOTOR_PosAct s /\
   eeprom_saved s'
   = MOTOR_ManuCalibration_H :: MOTOR_ManuCalibration_L :: eeprom_saved s) /\
  (eye_timer s = 0xff \/ MOTOR_Dir s <> open \/
   MOTOR_ManuCalibration (config s) <> 0 \/
   MOTOR_PosAct s < MOTOR_MIN_IMPULSES ->
   config s' = config s /\ eeprom_saved s' = eeprom_saved s).
Proof.
  cbv zeta. rewrite MOTOR_timer_stop_config, MOTOR_timer_stop_eeprom. split.
  - intros He Hd Hm Hmin. apply Z.eqb_neq in He. rewrite He, Hd, Hm.
    cbn [Z.leb Z.compare Z.eqb andb].
    replace (MOTOR_PosAct s >=? MOTOR_MIN_IMPULSES) with true
      by (symmetry; rewrite Z.geb_leb; apply Z.leb_le; exact Hmin).
    split; reflexivity.
  - intros H.
    destruct (eye_timer s =? 0xff) eqn:Ee; [split; reflexivity |].
    apply Z.eqb_neq in Ee.
    destruct (MOTOR_Dir s) eqn:Ed; try (split; reflexivity).
    destruct (MOTOR_ManuCalibration (config s) <=? 0); [| split; reflexivity].
    destruct H as [H | [H | [H | H]]]; [contradiction | congruence | |].
    + apply Z.eqb_neq in H. rewrite H. split; reflexivity.
    + replace (MOTOR_PosAct s >=? MOTOR_MIN_IMPULSES) with false
        by (symmetry; rewrite Z.geb_leb; apply Z.leb_gt; exact H).
      rewrite andb_false_r. split; reflexivity.
Qed.

(** X20: a complete calibration without a manual value, as the handler sees
    it: the opening leg 3 ends at position [a], and whatever the closing run
    does to the position and the timers, the handler then ends leg 4 with the
    calibration done, the motor stopped, the position at the origin, and a
    travel of [a] minus the position the closing run ended on (in 16 bits);
    a closing run that counts back to 0 leaves exactly the travel measured
    while opening. *)
Theorem calibration_open_then_close s s2 :
  eye_timer s <> 0xff ->
  MOTOR_Dir s = open ->
  MOTOR_calibration_step s = 3 ->
  MOTOR_ManuCalibration (config s) < 0 ->
  Int.in_int16 (MOTOR_PosAct s) ->
  eye_timer s2 <> 0xff ->
  MOTOR_Dir s2 = MOTOR_Dir (MOTOR_timer_stop s) ->
  MOTOR_calibration_step s2 = MOTOR_calibration_step (MOTOR_timer_stop s) ->
  MOTOR_PosMax s2 = MOTOR_PosMax (MOTOR_timer_stop s) ->
  config s2 = config (MOTOR_timer_stop s) ->
  let s' := MOTOR_timer_stop s2 in
  MOTOR_calibration_step s' = 0 /\
  MOTOR_Dir s' = stop /\
  MOTOR_PosAct s' = 0 /\
  MOTOR_PosMax s' = Int.int16 (MOTOR_PosAct s - MOTOR_PosAct s2) /\
  (MOTOR_PosAct s2 = 0 -> MOTOR_PosMax s' = MOTOR_PosAct s).
Proof.
  intros He Hd Hs Hm Ha He2 Hd2 Hs2 Hmax2 Hc2.
  apply Z.eqb_neq in He. apply Z.eqb_neq in He2.
  assert (Hcfg : config (MOTOR_timer_stop s) = config s).
  { rewrite MOTOR_timer_stop_config, He, Hd.
    replace (MOTOR_ManuCalibration (config s) =? 0) with false
      by (symmetry; apply Z.eqb_neq; lia).
    destruct (MOTOR_ManuCalibration (config s) <=? 0); reflexivity. }
  rewrite MOTOR_timer_stop_Dir, He, Hd, Hs in Hd2. cbn [Z.eqb Pos.eqb] in Hd2.
  rewrite MOTOR_timer_stop_step, He, Hd, Hs in Hs2. cbn [Z.eqb Pos.eqb] in Hs2.
  rewrite MOTOR_timer_stop_PosMax, He, Hd in Hmax2.
  replace (MOTOR_ManuCalibration (config s) <=? 0) with true in Hmax2
    by (symmetry; apply Z.leb_le; lia).
  rewrite Hcfg in Hc2. cbv zeta.
  rewrite MOTOR_timer_stop_step, MOTOR_timer_stop_Dir, MOTOR_timer_stop_PosAct,
    MOTOR_timer_stop_PosMax, He2, Hd2, Hs2, Hc2, Hmax2.
  cbn [Z.eqb Pos.eqb].
  replace (MOTOR_ManuCalibration (config s) <? 0) with true
    by (symmetry; apply Z.ltb_lt; exact Hm).
  repeat split. intros H0. rewrite H0, Z.sub_0_r. apply int16_id. exact Ha.
Qed.

(** *** Further properties: the interrupts *)

Lemma land_bit_testbit x n :
  0 <= n -> (Z.land x (Avr.bit n) =? 0) = negb (Z.testbit x n).
Proof.
  intros Hn. unfold Avr.bit.
  destruct (Z.testbit x n) eqn:E; cbn [negb].
  - apply Z.eqb_neq. intros H.
    assert (F : Z.testbit (Z.land x (Z.shiftl 1 n)) n = true).
    { rewrite Z.land_spec, E, Z.shiftl_spec, Z.sub_diag by assumption. reflexivity. }
    rewrite H, Z.bits_0 in F. discriminate.
  - apply Z.eqb_eq. apply Z.bits_inj'. intros k Hk.
    rewrite Z.land_spec, Z.bits_0, Z.shiftl_spec by assumption.
    destruct (Z.eq_dec k n) as [-> | Hkn].
    + rewrite E. reflexivity.
    + destruct (Z.lt_ge_cases k n).
      * rewrite (Z.testbit_neg_r 1 (k - n)) by lia. apply andb_false_r.
      * replace (Z.testbit 1 (k - n)) with false; [apply andb_false_r |].
        symmetry. apply (Z.bits_above_log2 1 (k - n));
          [lia | change (Z.log2 1) with 0; lia].
Qed.

(** The test for a counted pulse, bit by bit. *)
Lemma pulse_counts_bits pine s :
  pulse_counts pine s
  = Z.testbit pine Avr.PE4 && negb (Z.testbit (pine_last s) Avr.PE4)
    && (eye_timer s =? 0).
Proof.
  unfold pulse_counts. rewrite land_bit_testbit by discriminate.
  rewrite negb_involutive, Z.land_spec, Z.lnot_spec by discriminate.
  reflexivity.
Qed.

(** What the pin-change interrupt leaves in the motor variables. *)
Lemma PCINT0_vect_vars pine s :
  let s' := PCINT0_vect pine s in
  let a := Int.int16 (MOTOR_PosAct s + dir_val (MOTOR_Dir s)) in
  pine_last s' = pine /\
  MOTOR_Dir s' = MOTOR_Dir s /\
  MOTOR_PosStop s' = MOTOR_PosStop s /\
  MOTOR_PosMax s' = MOTOR_PosMax s /\
  motor_max_time_for_impulse s' = motor_max_time_for_impulse s /\
  MOTOR_PosAct s' = (if pulse_counts pine s then a else MOTOR_PosAct s) /\
  eye_timer s'
  = (if pulse_counts pine s
     then if a =? MOTOR_PosStop s then 0xff else EYE_TIMER_NOISE_PROTECTION
     else eye_timer s) /\
  motor_timer s'
  = (if pulse_counts pine s
     then if a =? MOTOR_PosStop s then MOTOR_RUN_OVERLOAD
          else motor_max_time_for_impulse s
     else motor_timer s) /\
  motor_diag s'
  = (if pulse_counts pine s
     then Int.uint16 (motor_max_time_for_impulse s - motor_timer s)
     else motor_diag s) /\
  task s' = (if pulse_counts pine s then Z.lor (task s) TASK_MOTOR_PULSE else task s).
Proof.
  unfold PCINT0_vect, pulse_counts. cbv zeta.
  destruct (COM_SERIAL && (Z.land pine (Avr.bit Avr.PE0) =? 0));
    cbn -[Int.int16 Int.uint16 Z.land Z.lnot Z.lor Avr.clear_bits Avr.bit Z.eqb];
    (destruct (negb (Z.land (Z.land pine (Z.lnot (pine_last s))) (Avr.bit Avr.PE4) =? 0)
               && (eye_timer s =? 0));
     cbn -[Int.int16 Int.uint16 Z.land Z.lnot Z.lor Avr.clear_bits Avr.bit Z.eqb];
     [ destruct (Int.int16 (MOTOR_PosAct s + dir_val (MOTOR_Dir s)) =? MOTOR_PosStop s);
       cbn -[Int.int16 Int.uint16 Z.land Z.lnot Z.lor Avr.clear_bits Avr.bit Z.eqb]
     | ]; repeat split).
Qed.

(** X21: the pin-change interrupt counts exactly the rising edges of PE4
    outside the debounce window.  When the sample has bit PE4 set, the
    previous sample had it clear and the debounce counter is 0, ActualPosition
    becomes ActualPosition + direction (in 16 bits), and the debounce counter
    and the timeout counter become 0xff and MOTOR_RUN_OVERLOAD if the new
    position equals StopPosition, the noise-protection window and the
    per-pulse timeout if not; in every other case the three are unchanged.
    The sample is remembered either way. *)
Theorem PCINT0_vect_edge pine s :
  let s' := PCINT0_vect pine s in
  let edge := Z.testbit pine Avr.PE4 && negb (Z.testbit (pine_last s) Avr.PE4)
              && (eye_timer s =? 0) in
  let a := Int.int16 (MOTOR_PosAct s + dir_val (MOTOR_Dir s)) in
  MOTOR_PosAct s' = (if edge then a else MOTOR_PosAct s) /\
  eye_timer s'
  = (if edge
     then if a =? MOTOR_PosStop s then 0xff else EYE_TIMER_NOISE_PROTECTION
     else eye_timer s) /\
  motor_timer s'
  = (if edge
     then if a =? MOTOR_PosStop s then MOTOR_RUN_OVERLOAD
          else motor_max_time_for_impulse s
     else motor_timer s) /\
  pine_last s' = pine.
Proof.
  cbv zeta. pose proof (PCINT0_vect_vars pine s) as V. cbv zeta in V.
  rewrite pulse_counts_bits in V.
  destruct V as (V0 & _ & _ & _ & _ & V1 & V2 & V3 & _).
  repeat split; assumption.
Qed.

(** X22: a pin change that is not a counted pulse (no rising edge on PE4, or
    inside the debounce window) leaves the state as it is but for the
    remembered sample and the serial wake-up: the result is the old state with
    the last sample replaced, after RS_enable_rx and the clearing of PCINT0 in
    PCMSK0 when a serial port is compiled in and PE0 is low in the sample.
    In particular the position, both timers, the diagnostic value, the task
    flags and the direction are unchanged. *)
Theorem PCINT0_vect_ignored pine s :
  pulse_counts pine s = false ->
  let s' := PCINT0_vect pine s in
  s' = set_pine_last pine
         (if COM_SERIAL && (Z.land pine (Avr.bit Avr.PE0) =? 0)
          then set_PCMSK0 (Avr.clear_bits (PCMSK0 (io s)) (Avr.bit Avr.PCINT0))
                 (RS_enable_rx s)
          else s) /\
  MOTOR_PosAct s' = MOTOR_PosAct s /\
  eye_timer s' = eye_timer s /\
  motor_timer s' = motor_timer s /\
  motor_diag s' = motor_diag s /\
  task s' = task s /\
  MOTOR_Dir s' = MOTOR_Dir s.
Proof.
  intros H. cbv zeta. split.
  - unfold PCINT0_vect, pulse_counts in *. cbv zeta.
    destruct (COM_SERIAL && (Z.land pine (Avr.bit Avr.PE0) =? 0));
      cbn -[Int.int16 Int.uint16 Z.land Z.lnot Z.lor Avr.clear_bits Avr.bit Z.eqb];
      rewrite H; reflexivity.
  - pose proof (PCINT0_vect_vars pine s) as V. cbv zeta in V.
    rewrite H in V. intuition.
Qed.

(** X23: a counted pulse that does not reach the stop position moves the
    position by one unit in the running direction (in 16 bits), restarts the
    debounce window and the per-pulse timeout, records the time since the last
    pulse and raises the pulse task flag. *)
Theorem PCINT0_vect_counted pine s :
  pulse_counts pine s = true ->
  Int.int16 (MOTOR_PosAct s + dir_val (MOTOR_Dir s)) <> MOTOR_PosStop s ->
  let s' := PCINT0_vect pine s in
  MOTOR_PosAct s' = Int.int16 (MOTOR_PosAct s + dir_val (MOTOR_Dir s)) /\
  eye_timer s' = EYE_TIMER_NOISE_PROTECTION /\
  motor_timer s' = motor_max_time_for_impulse s /\
  motor_diag s' = Int.uint16 (motor_max_time_for_impulse s - motor_timer s) /\
  Z.land (task s') TASK_MOTOR_PULSE = TASK_MOTOR_PULSE /\
  MOTOR_Dir s' = MOTOR_Dir s.
Proof.
  intros H Hne. pose proof (PCINT0_vect_vars pine s) as V. cbv zeta in V.
  apply Z.eqb_neq in Hne. rewrite H, Hne in V. cbv zeta.
  destruct V as (_ & V1 & _ & _ & _ & V2 & V3 & V4 & V5 & V6).
  rewrite V6. repeat split; try assumption. apply set_bits_land.
Qed.

(** X24: no sample is counted twice, and no edge is counted inside the
    debounce window a counted pulse opens: presenting the same sample again
    never changes the position, and with a non-zero noise-protection window
    the sample right after a counted pulse is never counted. *)
Theorem PCINT0_vect_debounce pine pine' s :
  MOTOR_PosAct (PCINT0_vect pine (PCINT0_vect pine s))
  = MOTOR_PosAct (PCINT0_vect pine s) /\
  (EYE_TIMER_NOISE_PROTECTION <> 0 ->
   pulse_counts pine s = true ->
   pulse_counts pine' (PCINT0_vect pine s) = false).
Proof.
  split.
  - pose proof (PCINT0_vect_vars pine (PCINT0_vect pine s)) as V. cbv zeta in V.
    destruct V as (_ & _ & _ & _ & _ & V & _). rewrite V.
    replace (pulse_counts pine (PCINT0_vect pine s)) with false; [reflexivity |].
    symmetry. unfold pulse_counts.
    replace (pine_last (PCINT0_vect pine s)) with pine
      by (symmetry; apply PCINT0_vect_vars).
    rewrite Z.land_lnot_diag. reflexivity.
  - intros Hn Hc. unfold pulse_counts.
    pose proof (PCINT0_vect_vars pine s) as V. cbv zeta in V.
    destruct V as (_ & _ & _ & _ & _ & _ & V & _). rewrite V, Hc.
    destruct (Int.int16 (MOTOR_PosAct s + dir_val (MOTOR_Dir s)) =? MOTOR_PosStop s).
    + apply andb_false_r.
    + apply Z.eqb_neq in Hn. rewrite Hn. apply andb_false_r.
Qed.

(** What one timer overflow leaves in the motor variables. *)
Lemma TIMER0_OVF_vect_vars s :
  let s' := TIMER0_OVF_vect s in
  MOTOR_PosAct s' = MOTOR_PosAct s /\
  MOTOR_PosMax s' = MOTOR_PosMax s /\
  MOTOR_PosStop s' = MOTOR_PosStop s /\
  MOTOR_Dir s' = MOTOR_Dir s /\
  motor_max_time_for_impulse s' = motor_max_time_for_impulse s /\
  pine_last s' = pine_last s /\
  config s' = config s /\
  eye_timer s'
  = (if (eye_timer s >? 0) && (eye_timer s <? 0xff)
     then eye_timer s - 1 else eye_timer s) /\
  motor_timer s'
  = (if motor_timer s >? 0 then motor_timer s - 1 else motor_timer s).
Proof.
  unfold TIMER0_OVF_vect. cbv zeta.
  destruct (motor_timer s >? 0);
    cbn -[Z.gtb Z.ltb Z.lor Avr.bit Z.sub Z.eqb];
    [| destruct (eye_timer s =? 0xff); cbn -[Z.gtb Z.ltb Z.lor Avr.bit Z.sub Z.eqb]];
    destruct ((eye_timer s >? 0) && (eye_timer s <? 0xff)); repeat split.
Qed.

Lemma TIMER0_OVF_vect_running s :
  0 < motor_timer s ->
  io (TIMER0_OVF_vect s) = io s /\
  task (TIMER0_OVF_vect s) = task s /\
  motor_diag (TIMER0_OVF_vect s) = motor_diag s.
Proof.
  intros H. unfold TIMER0_OVF_vect. cbv zeta.
  replace (motor_timer s >? 0) with true
    by (symmetry; rewrite Z.gtb_ltb; apply Z.ltb_lt; exact H).
  cbn -[Z.gtb Z.ltb Z.sub].
  destruct ((eye_timer s >? 0) && (eye_timer s <? 0xff)); repeat split.
Qed.

Lemma timer_ticks_S n s :
  timer_ticks (S n) s = TIMER0_OVF_vect (timer_ticks n s).
Proof. reflexivity. Qed.

Lemma timer_ticks_vars n s :
  MOTOR_PosAct (timer_ticks n s) = MOTOR_PosAct s /\
  MOTOR_PosMax (timer_ticks n s) = MOTOR_PosMax s /\
  MOTOR_PosStop (timer_ticks n s) = MOTOR_PosStop s /\
  MOTOR_Dir (timer_ticks n s) = MOTOR_Dir s /\
  motor_max_time_for_impulse (timer_ticks n s) = motor_max_time_for_impulse s /\
  pine_last (timer_ticks n s) = pine_last s /\
  config (timer_ticks n s) = config s.
Proof.
  induction n as [| n IH]; [repeat split |].
  rewrite timer_ticks_S.
  pose proof (TIMER0_OVF_vect_vars (timer_ticks n s)) as V. cbv zeta in V.
  destruct V as (V1 & V2 & V3 & V4 & V5 & V6 & V7 & _).
  destruct IH as (I1 & I2 & I3 & I4 & I5 & I6 & I7).
  repeat split; congruence.
Qed.

Lemma timer_ticks_eye_timer n s :
  0 <= eye_timer s < 0xff ->
  eye_timer (timer_ticks n s) = Z.max 0 (eye_timer s - Z.of_nat n).
Proof.
  intros He. induction n as [| n IH]; [change (timer_ticks 0 s) with s; lia |].
  rewrite timer_ticks_S.
  pose proof (TIMER0_OVF_vect_vars (timer_ticks n s)) as V. cbv zeta in V.
  destruct V as (_ & _ & _ & _ & _ & _ & _ & V & _). rewrite V, IH.
  destruct (Z.max 0 (eye_timer s - Z.of_nat n) >? 0) eqn:E1;
    [apply Z.gtb_lt in E1 | rewrite Z.gtb_ltb in E1; apply Z.ltb_ge in E1].
  - replace (Z.max 0 (eye_timer s - Z.of_nat n) <? 0xff) with true
      by (symmetry; apply Z.ltb_lt; lia).
    cbn [andb]. lia.
  - cbn [andb]. lia.
Qed.

Lemma timer_ticks_running n s :
  Z.of_nat n <= motor_timer s ->
  motor_timer (timer_ticks n s) = motor_timer s - Z.of_nat n /\
  io (timer_ticks n s) = io s /\
  task (timer_ticks n s) = task s /\
  motor_diag (timer_ticks n s) = motor_diag s.
Proof.
  induction n as [| n IH]; intros Hn.
  - change (timer_ticks 0 s) with s. repeat split. lia.
  - destruct IH as (I1 & I2 & I3 & I4); [lia |].
    rewrite timer_ticks_S.
    destruct (TIMER0_OVF_vect_running (timer_ticks n s)) as (R1 & R2 & R3); [lia |].
    pose proof (TIMER0_OVF_vect_vars (timer_ticks n s)) as V. cbv zeta in V.
    destruct V as (_ & _ & _ & _ & _ & _ & _ & _ & V). rewrite V.
    replace (motor_timer (timer_ticks n s) >? 0) with true
      by (symmetry; rewrite Z.gtb_ltb; apply Z.ltb_lt; lia).
    repeat split; try congruence. lia.
Qed.

Lemma TIMER0_OVF_vect_expired s :
  motor_timer s <= 0 ->
  let s' := TIMER0_OVF_vect s in
  H_BRIDGE (io s') = hb_stop /\
  TCCR0A (io s') = Z.lor (Avr.bit Avr.WGM00) (Avr.bit Avr.WGM01) /\
  TIMSK0 (io s') = TIMSK0 (io s) /\
  PCMSK0 (io s') = PCMSK0 (io s) /\
  task s' = Z.lor (task s) (Z.lor TASK_MOTOR_STOP TASK_MOTOR_PULSE) /\
  motor_diag s' = (if eye_timer s =? 0xff then 0xffff else 0xfffe).
Proof.
  intros H. unfold TIMER0_OVF_vect. cbv zeta.
  replace (motor_timer s >? 0) with false
    by (symmetry; rewrite Z.gtb_ltb; apply Z.ltb_ge; exact H).
  cbn -[Z.gtb Z.ltb Z.lor Avr.bit Z.sub Z.eqb].
  destruct (eye_timer s =? 0xff); cbn -[Z.gtb Z.ltb Z.lor Avr.bit Z.sub Z.eqb];
    destruct ((eye_timer s >? 0) && (eye_timer s <? 0xff)); repeat split.
Qed.

Lemma lor_land_l a b c : Z.land (Z.lor a (Z.lor b c)) b = b.
Proof.
  apply Z.bits_inj'. intros n _. rewrite Z.land_spec, !Z.lor_spec.
  destruct (Z.testbit a n), (Z.testbit b n), (Z.testbit c n); reflexivity.
Qed.

Lemma lor_land_r a b c : Z.land (Z.lor a (Z.lor b c)) c = c.
Proof.
  apply Z.bits_inj'. intros n _. rewrite Z.land_spec, !Z.lor_spec.
  destruct (Z.testbit a n), (Z.testbit b n), (Z.testbit c n); reflexivity.
Qed.

(** X25: when the timeout counter has run out, the timer overflow stops the
    drive at once (bridge off, PWM output disconnected) and raises both the
    stop and the pulse task flag, recording 0xffff or 0xfffe as diagnostic
    value according to whether the stop position had been hit; the commanded
    direction, the positions and the interrupt enables are left for the
    deferred handler. *)
Theorem TIMER0_OVF_vect_timeout s :
  motor_timer s = 0 ->
  let s' := TIMER0_OVF_vect s in
  H_BRIDGE (io s') = hb_stop /\
  TCCR0A (io s') = Z.lor (Avr.bit Avr.WGM00) (Avr.bit Avr.WGM01) /\
  Z.land (task s') TASK_MOTOR_STOP = TASK_MOTOR_STOP /\
  Z.land (task s') TASK_MOTOR_PULSE = TASK_MOTOR_PULSE /\
  motor_diag s' = (if eye_timer s =? 0xff then 0xffff else 0xfffe) /\
  motor_timer s' = 0 /\
  MOTOR_Dir s' = MOTOR_Dir s /\
  MOTOR_PosAct s' = MOTOR_PosAct s /\
  TIMSK0 (io s') = TIMSK0 (io s) /\
  PCMSK0 (io s') = PCMSK0 (io s).
Proof.
  intros H. cbv zeta.
  destruct (TIMER0_OVF_vect_expired s) as (E1 & E2 & E3 & E4 & E5 & E6); [lia |].
  pose proof (TIMER0_OVF_vect_vars s) as V. cbv zeta in V.
  destruct V as (V1 & _ & _ & V4 & _ & _ & _ & _ & V9).
  rewrite H in V9. cbn [Z.gtb Z.compare] in V9.
  rewrite E5. repeat split; try assumption.
  - apply lor_land_l.
  - apply lor_land_r.
Qed.

(** X26: the timer overflow counts the debounce window down to zero and not
    below, one per overflow, and never touches the sentinel 0xff: after [n]
    overflows a counter that started at [e] < 0xff holds max(0, e - n), and
    one that holds 0xff still does. *)
Theorem timer_ticks_debounce n s :
  (0 <= eye_timer s < 0xff ->
   eye_timer (timer_ticks n s) = Z.max 0 (eye_timer s - Z.of_nat n)) /\
  (eye_timer s = 0xff -> eye_timer (timer_ticks n s) = 0xff).
Proof.
  split; [apply timer_ticks_eye_timer |].
  intros He. induction n as [| n IH]; [exact He |].
  rewrite timer_ticks_S.
  pose proof (TIMER0_OVF_vect_vars (timer_ticks n s)) as V. cbv zeta in V.
  destruct V as (_ & _ & _ & _ & _ & _ & _ & V & _). rewrite V, IH. reflexivity.
Qed.

(** X27: the timeout fires on overflow number motor_timer + 1 exactly: after
    [n] overflows, [n] up to motor_timer, the timeout counter is
    motor_timer - n with the registers, the task flags and the position
    unchanged (the debounce counter counts down beside it, X26); the next
    overflow stops the bridge and raises the stop task flag. *)
Theorem timer_ticks_expire s :
  0 <= motor_timer s ->
  (forall n, Z.of_nat n <= motor_timer s ->
     motor_timer (timer_ticks n s) = motor_timer s - Z.of_nat n /\
     io (timer_ticks n s) = io s /\
     task (timer_ticks n s) = task s /\
     MOTOR_PosAct (timer_ticks n s) = MOTOR_PosAct s) /\
  (let s' := timer_ticks (S (Z.to_nat (motor_timer s))) s in
   H_BRIDGE (io s') = hb_stop /\
   Z.land (task s') TASK_MOTOR_STOP = TASK_MOTOR_STOP).
Proof.
  intros H0. split.
  - intros n Hn. destruct (timer_ticks_running n s Hn) as (R1 & R2 & R3 & _).
    repeat split; try assumption. apply timer_ticks_vars.
  - cbv zeta. rewrite timer_ticks_S.
    destruct (timer_ticks_running (Z.to_nat (motor_timer s)) s) as (R1 & _); [lia |].
    destruct (TIMER0_OVF_vect_expired (timer_ticks (Z.to_nat (motor_timer s)) s))
      as (E1 & _ & _ & _ & E5 & _); [lia |].
    rewrite E5. split; [exact E1 | apply lor_land_l].
Qed.

(** *** Further properties: counting a run of pulses *)

Lemma PCINT0_vect_H_BRIDGE pine s :
  H_BRIDGE (io (PCINT0_vect pine s)) = H_BRIDGE (io s).
Proof.
  unfold PCINT0_vect. cbv zeta.
  destruct (COM_SERIAL && (Z.land pine (Avr.bit Avr.PE0) =? 0));
    cbn -[Int.int16 Int.uint16 Z.land Z.lnot Z.lor Avr.clear_bits Avr.bit Z.eqb];
    repeat (case_atom;
            cbn -[Int.int16 Int.uint16 Z.land Z.lnot Z.lor Avr.clear_bits Avr.bit Z.eqb]);
    reflexivity.
Qed.

(** One clean pulse away from the stop position. *)
Lemma pulse_cycle_step lo hi s :
  Z.testbit lo Avr.PE4 = false ->
  Z.testbit hi Avr.PE4 = true ->
  0 <= EYE_TIMER_NOISE_PROTECTION < 0xff ->
  eye_timer s = EYE_TIMER_NOISE_PROTECTION ->
  EYE_TIMER_NOISE_PROTECTION <= motor_timer s ->
  Int.int16 (MOTOR_PosAct s + dir_val (MOTOR_Dir s)) <> MOTOR_PosStop s ->
  let s' := pulse_cycle lo hi s in
  MOTOR_PosAct s' = Int.int16 (MOTOR_PosAct s + dir_val (MOTOR_Dir s)) /\
  eye_timer s' = EYE_TIMER_NOISE_PROTECTION /\
  motor_timer s' = motor_max_time_for_impulse s /\
  motor_max_time_for_impulse s' = motor_max_time_for_impulse s /\
  MOTOR_Dir s' = MOTOR_Dir s /\
  MOTOR_PosStop s' = MOTOR_PosStop s /\
  H_BRIDGE (io s') = H_BRIDGE (io s).
Proof.
  intros Hlo Hhi Hn He Ht Hne. cbv zeta. unfold pulse_cycle.
  set (t := timer_ticks (Z.to_nat EYE_TIMER_NOISE_PROTECTION) s).
  assert (Hof : Z.of_nat (Z.to_nat EYE_TIMER_NOISE_PROTECTION)
                = EYE_TIMER_NOISE_PROTECTION) by (apply Z2Nat.id; lia).
  destruct (timer_ticks_vars (Z.to_nat EYE_TIMER_NOISE_PROTECTION) s)
    as (T1 & _ & T3 & T4 & T5 & _ & _).
  assert (Te : eye_timer t = 0).
  { unfold t. rewrite timer_ticks_eye_timer by lia. lia. }
  destruct (timer_ticks_running (Z.to_nat EYE_TIMER_NOISE_PROTECTION) s)
    as (_ & Tio & _); [lia |].
  fold t in T1, T3, T4, T5, Tio.
  set (u := PCINT0_vect lo t).
  assert (Cu : pulse_counts lo t = false).
  { unfold pulse_counts. rewrite land_bit_testbit by discriminate.
    rewrite Z.land_spec, Hlo. reflexivity. }
  pose proof (PCINT0_vect_vars lo t) as U. cbv zeta in U. rewrite Cu in U.
  fold u in U. destruct U as (U0 & U1 & U2 & _ & U4 & U5 & U6 & _).
  assert (Cv : pulse_counts hi u = true).
  { unfold pulse_counts. rewrite land_bit_testbit by discriminate.
    rewrite Z.land_spec, Z.lnot_spec, Hhi, U0, Hlo, U6, Te by discriminate.
    reflexivity. }
  pose proof (PCINT0_vect_vars hi u) as V. cbv zeta in V. rewrite Cv in V.
  destruct V as (_ & V1 & V2 & _ & V4 & V5 & V6 & V7 & _).
  rewrite U5, U1, U2, T1, T3, T4 in *.
  apply Z.eqb_neq in Hne. rewrite Hne in V6, V7.
  rewrite PCINT0_vect_H_BRIDGE.
  repeat split; try congruence.
  unfold u. rewrite PCINT0_vect_H_BRIDGE, Tio. reflexivity.
Qed.

Lemma dir_val_range d : -1 <= dir_val d <= 1.
Proof. destruct d; cbn; lia. Qed.

(** X28: a run of clean pulses is counted one by one.  While the motor runs
    with the debounce window and the per-pulse timeout freshly armed (the
    window shorter than the timeout), [n] pulses, each a low and a high
    sample of PE4 after the window has elapsed, move the position by [n]
    units in the running direction, as long as the stop position is not among
    the positions passed and the count stays in 16 bits; the motor keeps
    running, and window and timeout are armed again. *)
Theorem pulse_cycles_count lo hi n s :
  Z.testbit lo Avr.PE4 = false ->
  Z.testbit hi Avr.PE4 = true ->
  0 <= EYE_TIMER_NOISE_PROTECTION < 0xff ->
  eye_timer s = EYE_TIMER_NOISE_PROTECTION ->
  motor_timer s = motor_max_time_for_impulse s ->
  EYE_TIMER_NOISE_PROTECTION <= motor_max_time_for_impulse s ->
  Int.in_int16 (MOTOR_PosAct s) ->
  Int.in_int16 (MOTOR_PosAct s + Z.of_nat n * dir_val (MOTOR_Dir s)) ->
  (forall k, 1 <= k <= Z.of_nat n ->
     MOTOR_PosAct s + k * dir_val (MOTOR_Dir s) <> MOTOR_PosStop s) ->
  let s' := Nat.iter n (pulse_cycle lo hi) s in
  MOTOR_PosAct s' = MOTOR_PosAct s + Z.of_nat n * dir_val (MOTOR_Dir s) /\
  MOTOR_Dir s' = MOTOR_Dir s /\
  H_BRIDGE (io s') = H_BRIDGE (io s) /\
  eye_timer s' = EYE_TIMER_NOISE_PROTECTION /\
  motor_timer s' = motor_max_time_for_impulse s /\
  motor_max_time_for_impulse s' = motor_max_time_for_impulse s /\
  MOTOR_PosStop s' = MOTOR_PosStop s.
Proof.
  intros Hlo Hhi Hn He Ht Hmax Ha. cbv zeta.
  pose proof (dir_val_range (MOTOR_Dir s)) as Hd.
  unfold Int.in_int16 in *.
  induction n as [| n IH]; intros Hend Hstop.
  - change (Nat.iter 0 (pulse_cycle lo hi) s) with s. change (Z.of_nat 0) with 0.
    repeat split; try assumption. lia.
  - destruct IH as (I1 & I2 & I3 & I4 & I5 & I6 & I7).
    { nia. }
    { intros k Hk. apply Hstop. lia. }
    change (Nat.iter (S n) (pulse_cycle lo hi) s)
      with (pulse_cycle lo hi (Nat.iter n (pulse_cycle lo hi) s)).
    set (t := Nat.iter n (pulse_cycle lo hi) s) in *.
    assert (Hnext : Int.int16 (MOTOR_PosAct t + dir_val (MOTOR_Dir t))
                    = MOTOR_PosAct s + Z.of_nat (S n) * dir_val (MOTOR_Dir s)).
    { rewrite I1, I2. rewrite int16_id by (unfold Int.in_int16; nia). lia. }
    destruct (pulse_cycle_step lo hi t Hlo Hhi Hn I4) as (P1 & P2 & P3 & P4 & P5 & P6 & P7).
    { rewrite I5. exact Hmax. }
    { rewrite Hnext, I7. apply Hstop. lia. }
    rewrite P1, P2, P3, P4, P5, P6, P7, Hnext, I2, I3, I6, I7.
    repeat split.
Qed.

End Motor.

(** ** The model on concrete states *)

Local Abbreviation MAX := Sample.MAX_IMPULSES.
Local Abbreviation MIN := Sample.MIN_IMPULSES.
Local Abbreviation NOISE := Sample.NOISE_PROTECTION.
Local Abbreviation ERR := Sample.ERR_MOTOR.
Local Abbreviation PULSE := Sample.MOTOR_PULSE.
Local Abbreviation STOP := Sample.MOTOR_STOP.

(** C1 fails on the stop it names, a time-out short of the stop position:
    calibration leg 3 opening, stalled at position 300 of a stop position of
    1000 with the timeout counter run out.  The timer overflow raises the stop
    event with the debounce counter at 0, not 0xff, and the handler takes the
    stop for the open end: the step becomes 4 instead of -1, MaxPosition
    changes from 777 to 300, StopPosition from 1000 to -700, and the motor is
    reversed. *)
Lemma MOTOR_timer_stop_sentinel_counterexample :
  (motor_timer
     (set_MOTOR_PosMax 777 (Sample.running open 3 300 1000 (Sample.cfg (-1)))) = 0) /\
  (MOTOR_PosAct
     (set_MOTOR_PosMax 777 (Sample.running open 3 300 1000 (Sample.cfg (-1))))
   <> MOTOR_PosStop
        (set_MOTOR_PosMax 777 (Sample.running open 3 300 1000 (Sample.cfg (-1))))) /\
  (Z.land
     (task
        (TIMER0_OVF_vect PULSE STOP
       (set_MOTOR_PosMax 777 (Sample.running open 3 300 1000 (Sample.cfg (-1))))))
     STOP = STOP) /\
  (eye_timer
     (TIMER0_OVF_vect PULSE STOP
       (set_MOTOR_PosMax 777 (Sample.running open 3 300 1000 (Sample.cfg (-1))))) <> 0xff) /\
  (MOTOR_calibration_step
     (MOTOR_timer_stop MAX MIN NOISE ERR
     (TIMER0_OVF_vect PULSE STOP
         (set_MOTOR_PosMax 777 (Sample.running open 3 300 1000 (Sample.cfg (-1)))))) = 4) /\
  (MOTOR_PosMax
     (MOTOR_timer_stop MAX MIN NOISE ERR
     (TIMER0_OVF_vect PULSE STOP
         (set_MOTOR_PosMax 777 (Sample.running open 3 300 1000 (Sample.cfg (-1)))))) = 300) /\
  (MOTOR_PosStop
     (MOTOR_timer_stop MAX MIN NOISE ERR
     (TIMER0_OVF_vect PULSE STOP
         (set_MOTOR_PosMax 777 (Sample.running open 3 300 1000 (Sample.cfg (-1)))))) = -700) /\
  (MOTOR_Dir
     (MOTOR_timer_stop MAX MIN NOISE ERR
     (TIMER0_OVF_vect PULSE STOP
         (set_MOTOR_PosMax 777 (Sample.running open 3 300 1000 (Sample.cfg (-1)))))) = close).
Proof. vm_compute. repeat split; discriminate. Qed.

(** C1 (amended) on an opening calibration leg whose pulse count reached the
    stop position: the calibration is marked failed and the positions stay. *)
Lemma MOTOR_timer_stop_sentinel_witness :
  eye_timer (set_eye_timer 0xff (Sample.running open 3 1000 1000 (Sample.cfg (-1)))) = 0xff /\
  MOTOR_calibration_step
    (MOTOR_timer_stop MAX MIN NOISE ERR
       (set_eye_timer 0xff (Sample.running open 3 1000 1000 (Sample.cfg (-1))))) = -1 /\
  MOTOR_PosAct
    (MOTOR_timer_stop MAX MIN NOISE ERR
       (set_eye_timer 0xff (Sample.running open 3 1000 1000 (Sample.cfg (-1))))) = 1000.
Proof.
  split; [reflexivity |].
  destruct (MOTOR_timer_stop_sentinel MAX MIN NOISE ERR
              (set_eye_timer 0xff (Sample.running open 3 1000 1000 (Sample.cfg (-1))))
              eq_refl) as (H1 & _ & H2 & _).
  split; [apply H1; discriminate | exact H2].
Defined.

(** C2 fails right after an opening run that measured a travel of 109: the
    result is 109; and one pulse below the origin of a travel of 100 the
    result is 255 although the motor is calibrated. *)
Lemma MOTOR_GetPosPercent_counterexample :
  (10 < MOTOR_PosMax (Sample.idle 109 109 (Sample.cfg (-1))) /\
   MOTOR_calibration_step (Sample.idle 109 109 (Sample.cfg (-1))) = 0 /\
   MOTOR_GetPosPercent (Sample.idle 109 109 (Sample.cfg (-1))) = 109 /\
   ~ (0 <= MOTOR_GetPosPercent (Sample.idle 109 109 (Sample.cfg (-1))) <= 100)) /\
  (MOTOR_GetPosPercent (Sample.idle (-1) 100 (Sample.cfg 100)) = 255 /\
   ~ (MOTOR_PosMax (Sample.idle (-1) 100 (Sample.cfg 100)) <= 10 \/
      MOTOR_calibration_step (Sample.idle (-1) 100 (Sample.cfg 100)) <> 0)).
Proof.
  vm_compute. repeat split; try discriminate.
  - intros [_ H]. apply H. reflexivity.
  - intros [H | H]; apply H; reflexivity.
Qed.

(** C2 (amended) at the open end of a travel of 109. *)
Lemma MOTOR_GetPosPercent_spec_witness :
  (MOTOR_GetPosPercent (Sample.idle 109 109 (Sample.cfg (-1))) = 255 <->
   MOTOR_PosMax (Sample.idle 109 109 (Sample.cfg (-1))) <= 10 \/
   MOTOR_calibration_step (Sample.idle 109 109 (Sample.cfg (-1))) <> 0) /\
  MOTOR_GetPosPercent (Sample.idle 109 109 (Sample.cfg (-1))) = 109 * 10 / (109 / 10) /\
  MOTOR_GetPosPercent (Sample.idle 109 109 (Sample.cfg (-1))) <= 109.
Proof.
  assert (Ha : 0 <= 109 <= 109) by lia.
  assert (Hs : 109 <= 3276) by lia.
  assert (Hl : 100 <= 109) by lia.
  destruct (MOTOR_GetPosPercent_spec (Sample.idle 109 109 (Sample.cfg (-1))))
    as (_ & _ & H).
  destruct (H Ha Hs) as (Hiff & Hin).
  destruct (Hin eq_refl eq_refl) as (E & _ & H109 & _).
  split; [exact Hiff | split; [exact E | exact (H109 Hl)]].
Defined.

(** C3 fails when a calibration ended with a travel of zero: not calibrated,
    yet Goto(50) succeeds, stores a stop position and starts the motor. *)
Lemma MOTOR_Goto_not_calibrated_counterexample :
  MOTOR_IsCalibrated (Sample.idle 0 0 (Sample.cfg (-1))) = false /\
  MOTOR_PosMax (Sample.idle 0 0 (Sample.cfg (-1))) = 0 /\
  fst (MOTOR_Goto NOISE 50 (Sample.idle 0 0 (Sample.cfg (-1)))) = true /\
  MOTOR_PosStop (snd (MOTOR_Goto NOISE 50 (Sample.idle 0 0 (Sample.cfg (-1)))))
    <> MOTOR_PosStop (Sample.idle 0 0 (Sample.cfg (-1))) /\
  MOTOR_Dir (snd (MOTOR_Goto NOISE 50 (Sample.idle 0 0 (Sample.cfg (-1)))))
    <> MOTOR_Dir (Sample.idle 0 0 (Sample.cfg (-1))).
Proof. vm_compute. repeat split; discriminate. Qed.

(** C3 (amended) before any calibration. *)
Lemma MOTOR_Goto_not_calibrated_witness :
  MOTOR_calibration_step Sample.fresh <> 0 /\
  MOTOR_Goto NOISE 50 Sample.fresh = (false, Sample.fresh).
Proof.
  split; [discriminate |].
  apply (MOTOR_Goto_not_calibrated NOISE 50 Sample.fresh). discriminate.
Defined.

(** C4 fails without hysteresis on a short travel (1% equals 0%), on a
    travel shorter than twice the protection margin (99% lies below 0% and
    below 1%), and on a travel long enough for the 16-bit product to wrap
    (5% lies below 4%). *)
Lemma MOTOR_Goto_stop_positions_counterexample :
  (MOTOR_IsCalibrated (Sample.idle 0 100 (Sample.cfg_margins 0 15 (-1))) = true /\
   ~ (goto_target NOISE 0 (Sample.idle 0 100 (Sample.cfg_margins 0 15 (-1)))
      < goto_target NOISE 1 (Sample.idle 0 100 (Sample.cfg_margins 0 15 (-1))))) /\
  (MOTOR_IsCalibrated (Sample.idle 0 20 (Sample.cfg (-1))) = true /\
   ~ (goto_target NOISE 0 (Sample.idle 0 20 (Sample.cfg (-1)))
      < goto_target NOISE 99 (Sample.idle 0 20 (Sample.cfg (-1)))) /\
   ~ (goto_target NOISE 1 (Sample.idle 0 20 (Sample.cfg (-1)))
      <= goto_target NOISE 99 (Sample.idle 0 20 (Sample.cfg (-1))))) /\
  (MOTOR_IsCalibrated (Sample.idle 0 32767 (Sample.cfg (-1))) = true /\
   ~ (goto_target NOISE 4 (Sample.idle 0 32767 (Sample.cfg (-1)))
      <= goto_target NOISE 5 (Sample.idle 0 32767 (Sample.cfg (-1))))).
Proof.
  vm_compute. repeat split; intros H; first [discriminate H | apply H; reflexivity].
Qed.

(** C4 (amended) on a travel of 400 with hysteresis 10 and protection 15. *)
Lemma MOTOR_Goto_stop_positions_witness :
  goto_target NOISE 0 (Sample.idle 0 400 (Sample.cfg (-1)))
  < goto_target NOISE 50 (Sample.idle 0 400 (Sample.cfg (-1)))
  < goto_target NOISE 100 (Sample.idle 0 400 (Sample.cfg (-1))) /\
  goto_target NOISE 50 (Sample.idle 0 400 (Sample.cfg (-1)))
  <= goto_target NOISE 51 (Sample.idle 0 400 (Sample.cfg (-1))).
Proof.
  assert (H : MOTOR_calibration_step (Sample.idle 0 400 (Sample.cfg (-1))) = 0 /\
              Int.in_uint8 10 /\ Int.in_uint8 15 /\
              0 <= 400 - 2 * 15 <= 1323 /\ (0 < 10 \/ 100 <= 400 - 2 * 15))
    by (unfold Int.in_uint8; cbn; lia).
  destruct H as (H1 & H2 & H3 & H4 & H5).
  destruct (MOTOR_Goto_stop_positions NOISE (Sample.idle 0 400 (Sample.cfg (-1)))
              H1 H2 H3 H4 H5) as [Hb Hm].
  split; [apply Hb | apply Hm]; lia.
Defined.

(** C5 on an opening motor one pulse short of its stop position 100, with a
    rising edge on PE4. *)
Lemma PCINT0_vect_stop_position_witness :
  eye_timer (PCINT0_vect NOISE PULSE true 0x10
               (Sample.running open 0 99 100 (Sample.cfg (-1)))) = 0xff /\
  motor_timer (PCINT0_vect NOISE PULSE true 0x10
                 (Sample.running open 0 99 100 (Sample.cfg (-1)))) = 768 /\
  MOTOR_Dir (PCINT0_vect NOISE PULSE true 0x10
               (Sample.running open 0 99 100 (Sample.cfg (-1)))) = open.
Proof.
  assert (Hedge : Z.land (Z.land 0x10 (Z.lnot 0)) (Avr.bit Avr.PE4) <> 0)
    by discriminate.
  destruct (PCINT0_vect_stop_position NOISE PULSE true 0x10
              (Sample.running open 0 99 100 (Sample.cfg (-1)))
              Hedge eq_refl eq_refl) as (_ & H1 & H2 & H3 & _).
  split; [exact H1 | split; [exact H2 | exact H3]].
Defined.

(** C7 fails after exactly five calls: the retry wait has only just elapsed,
    the step is still pending (1 without a manual calibration value, 2 with
    the value 0) and the motor stands still.  And the launching call closes
    the valve at 60 percent when no manual calibration value is set, but opens
    it when one is. *)
Lemma MOTOR_updateCalibration_first_leg_counterexample :
  (MOTOR_calibration_step (calibration_ticks MAX NOISE 5 Sample.fresh) = 1 /\
   MOTOR_calibration_step (calibration_ticks MAX NOISE 5 Sample.fresh) <> 3 /\
   MOTOR_Dir (calibration_ticks MAX NOISE 5 Sample.fresh) = stop /\
   MOTOR_PosStop (calibration_ticks MAX NOISE 5 Sample.fresh) <> MAX) /\
  (MOTOR_calibration_step
     (calibration_ticks MAX NOISE 5 (motor_init (Sample.cfg 0) Sample.regs)) = 2 /\
   MOTOR_Dir
     (calibration_ticks MAX NOISE 5 (motor_init (Sample.cfg 0) Sample.regs)) = stop) /\
  (MOTOR_Dir
     (MOTOR_updateCalibration MAX NOISE 1 60
        (calibration_ticks MAX NOISE 5 Sample.fresh)) = close /\
   MOTOR_Dir
     (MOTOR_updateCalibration MAX NOISE 1 60
        (calibration_ticks MAX NOISE 5 (motor_init (Sample.cfg 500) Sample.regs))) = open).
Proof. vm_compute. repeat split; discriminate. Qed.

(** C7 (amended) from the start-up state: six calls launch the opening leg. *)
Lemma MOTOR_updateCalibration_first_leg_witness :
  MOTOR_calibration_step (calibration_ticks MAX NOISE 6 Sample.fresh) = 3 /\
  MOTOR_Dir (calibration_ticks MAX NOISE 6 Sample.fresh) = open /\
  MOTOR_PosStop (calibration_ticks MAX NOISE 6 Sample.fresh) = MAX.
Proof.
  assert (Hmax : Int.in_int16 MAX) by (unfold Int.in_int16, MAX; lia).
  destruct (MOTOR_updateCalibration_first_leg MAX NOISE Sample.fresh
              eq_refl eq_refl Hmax) as (_ & H & _).
  destruct (H 6%nat (le_n 6)) as (H1 & H2 & H3 & _).
  split; [exact H1 | split; [exact H2 | exact H3]].
Defined.

(** C8 on an opening motor asked to open. *)
Lemma MOTOR_Control_idempotent_witness :
  MOTOR_Control NOISE open (Sample.running open 0 99 100 (Sample.cfg (-1)))
  = Sample.running open 0 99 100 (Sample.cfg (-1)).
Proof.
  destruct (MOTOR_Control_idempotent NOISE open
              (Sample.running open 0 99 100 (Sample.cfg (-1)))) as [H _].
  apply H; [discriminate | reflexivity].
Defined.

(** C9 on an idle, calibrated motor with a travel of 50, below the minimum:
    the handler raises the fault. *)
Lemma MOTOR_timer_stop_fault_witness :
  ERR <> 0 /\
  motor_fault ERR
    (MOTOR_timer_stop MAX MIN NOISE ERR (Sample.idle 0 50 (Sample.cfg (-1)))) = true.
Proof.
  assert (Herr : ERR <> 0) by discriminate.
  split; [exact Herr |].
  apply (MOTOR_timer_stop_fault MAX MIN NOISE ERR
           (Sample.idle 0 50 (Sample.cfg (-1))) Herr).
  split; [reflexivity | right; reflexivity].
Defined.

(** C10 at position 199 of a travel of 400, which is where 50 percent lies. *)
Lemma MOTOR_Goto_in_position_witness :
  MOTOR_Goto NOISE 50 (Sample.idle 199 400 (Sample.cfg (-1)))
  = (true, set_MOTOR_PosStop 199 (Sample.idle 199 400 (Sample.cfg (-1)))) /\
  MOTOR_Dir (snd (MOTOR_Goto NOISE 50 (Sample.idle 199 400 (Sample.cfg (-1))))) = stop.
Proof.
  destruct (MOTOR_Goto_in_position NOISE 50
              (Sample.idle 199 400 (Sample.cfg (-1)))
              eq_refl eq_refl eq_refl) as (H1 & H2 & _).
  split; [exact H1 | exact H2].
Defined.

(** A calibration during which the photo eye never fires: both legs run into
    the timeout, the handler takes each stop for an end stop, and the
    calibration ends as done with a travel of zero.  The motor is then not
    calibrated, the fault bit is set, and Goto still accepts a request. *)
Lemma calibration_without_pulses :
  let leg s :=
    MOTOR_timer_stop MAX MIN NOISE ERR
      (Nat.iter (Z.to_nat 5121) (TIMER0_OVF_vect PULSE STOP) s) in
  let s := leg (leg (calibration_ticks MAX NOISE 6 Sample.fresh)) in
  MOTOR_calibration_step s = 0 /\
  MOTOR_PosMax s = 0 /\
  MOTOR_PosAct s = 0 /\
  MOTOR_Dir s = stop /\
  MOTOR_IsCalibrated s = false /\
  motor_fault ERR s = true /\
  fst (MOTOR_Goto NOISE 50 s) = true.
Proof. vm_compute. repeat split. Qed.

(** A complete calibration without a manual value: 300 pulses up to the open
    end stop, then 300 pulses down to the closed one, leave a travel of 300
    and the position 0, and the position reads 0 percent. *)
Lemma calibration_round_trip :
  let pulse s := PCINT0_vect NOISE PULSE true 0x10 (PCINT0_vect NOISE PULSE true 0 s) in
  let debounce s := Nat.iter 5 (TIMER0_OVF_vect PULSE STOP) s in
  let run n s := Nat.iter n (fun s => pulse (debounce s)) s in
  let timeout s :=
    MOTOR_timer_stop MAX MIN NOISE ERR
      (Nat.iter (Z.to_nat 5121) (TIMER0_OVF_vect PULSE STOP) s) in
  let s := timeout (run 300%nat
             (timeout (run 300%nat (calibration_ticks MAX NOISE 6 Sample.fresh)))) in
  MOTOR_calibration_step s = 0 /\
  MOTOR_PosMax s = 300 /\
  MOTOR_PosAct s = 0 /\
  MOTOR_Dir s = stop /\
  motor_fault ERR s = false /\
  MOTOR_GetPosPercent s = 0.
Proof. vm_compute. repeat split. Qed.

(** ** The further properties on concrete states *)

(** X1 on a calibrated motor opening over a travel of 400. *)
Lemma MOTOR_Goto_while_moving_witness :
  MOTOR_Goto NOISE 50 (set_MOTOR_Dir open (Sample.idle 100 400 (Sample.cfg (-1))))
  = (true, set_MOTOR_PosStop 199
             (set_MOTOR_Dir open (Sample.idle 100 400 (Sample.cfg (-1))))).
Proof.
  assert (Hd : MOTOR_Dir (set_MOTOR_Dir open (Sample.idle 100 400 (Sample.cfg (-1))))
               <> stop) by discriminate.
  exact (MOTOR_Goto_while_moving NOISE 50
           (set_MOTOR_Dir open (Sample.idle 100 400 (Sample.cfg (-1)))) eq_refl Hd).
Defined.

(** X2 on an idle motor at 100 of 400 asked for 50 percent (199): it opens. *)
Lemma MOTOR_Goto_direction_witness :
  dir_val (MOTOR_Dir (snd (MOTOR_Goto NOISE 50 (Sample.idle 100 400 (Sample.cfg (-1))))))
  = 1.
Proof.
  destruct (MOTOR_Goto_direction NOISE 50 (Sample.idle 100 400 (Sample.cfg (-1)))
              eq_refl eq_refl) as (_ & H & _).
  exact H.
Defined.

(** X3 at 50 percent of a travel of 400 with protection 15. *)
Lemma goto_stop_position_margins_witness :
  15 <= goto_stop_position 50 (Sample.idle 0 400 (Sample.cfg (-1))) <= 400 - 15.
Proof.
  assert (Hp : Int.in_uint8 15) by (unfold Int.in_uint8; lia).
  assert (Hs : 0 <= 400 - 2 * 15 <= 1323) by lia.
  assert (Hc : 1 <= 50 <= 99) by lia.
  exact (goto_stop_position_margins 50 (Sample.idle 0 400 (Sample.cfg (-1))) Hp Hs Hc).
Defined.

(** X4 at a quarter of a travel of 1000. *)
Lemma MOTOR_GetPosPercent_known_witness :
  MOTOR_IsCalibrated (Sample.idle 250 1000 (Sample.cfg (-1))) = true.
Proof.
  apply (MOTOR_GetPosPercent_known (Sample.idle 250 1000 (Sample.cfg (-1)))).
  vm_compute. discriminate.
Defined.

(** X5 between positions 100 and 200 of a travel of 1000. *)
Lemma MOTOR_GetPosPercent_monotone_witness :
  MOTOR_GetPosPercent (set_MOTOR_PosAct 100 (Sample.idle 0 1000 (Sample.cfg (-1))))
  <= MOTOR_GetPosPercent (set_MOTOR_PosAct 200 (Sample.idle 0 1000 (Sample.cfg (-1)))).
Proof.
  apply (MOTOR_GetPosPercent_monotone 100 200 (Sample.idle 0 1000 (Sample.cfg (-1))));
    cbn; lia.
Defined.

(** X6 at the open end of a travel of 1000. *)
Lemma MOTOR_GetPosPercent_end_stops_witness :
  MOTOR_GetPosPercent (Sample.idle 1000 1000 (Sample.cfg (-1))) = 100.
Proof.
  assert (Hm : 100 <= 1000 <= 3276) by lia.
  destruct (MOTOR_GetPosPercent_end_stops (Sample.idle 1000 1000 (Sample.cfg (-1)))
              eq_refl Hm) as (_ & _ & H).
  apply H; reflexivity.
Defined.

(** X7 on an idle motor switched to opening, with a run timeout of 20. *)
Lemma MOTOR_Control_start_witness :
  motor_timer (MOTOR_Control NOISE open (Sample.idle 0 400 (Sample.cfg (-1)))) = 5120 /\
  eye_timer (MOTOR_Control NOISE open (Sample.idle 0 400 (Sample.cfg (-1)))) = NOISE /\
  H_BRIDGE (io (MOTOR_Control NOISE open (Sample.idle 0 400 (Sample.cfg (-1))))) = hb_open.
Proof.
  assert (H1 : open <> stop) by discriminate.
  assert (H2 : MOTOR_Dir (Sample.idle 0 400 (Sample.cfg (-1))) <> open) by discriminate.
  assert (H3 : Int.in_uint8 20) by (unfold Int.in_uint8; lia).
  destruct (MOTOR_Control_start NOISE open (Sample.idle 0 400 (Sample.cfg (-1)))
              H1 H2 H3) as (_ & T & _ & E & _ & _ & _ & B & _).
  split; [exact T | split; [exact E | exact B]].
Defined.

(** X10 on the start-up state: cal_type 3 saves the value -1. *)
Lemma MOTOR_updateCalibration_mode_witness :
  MOTOR_ManuCalibration (config (MOTOR_updateCalibration MAX NOISE 3 0 Sample.fresh)) = -1 /\
  eeprom_saved (MOTOR_updateCalibration MAX NOISE 3 0 Sample.fresh)
  = [MOTOR_ManuCalibration_H; MOTOR_ManuCalibration_L].
Proof.
  destruct (MOTOR_updateCalibration_mode MAX NOISE 0 Sample.fresh eq_refl)
    as ((H1 & _ & H2 & _) & _).
  split; [exact H1 | exact H2].
Defined.

(** X11 on a calibrated motor: cal_type 3 no longer switches the mode. *)
Lemma MOTOR_updateCalibration_keeps_config_witness :
  config (MOTOR_updateCalibration MAX NOISE 3 0 (Sample.idle 0 400 (Sample.cfg 400)))
  = Sample.cfg 400.
Proof.
  assert (H1 : 3 <> 0) by discriminate.
  assert (H2 : MOTOR_calibration_step (Sample.idle 0 400 (Sample.cfg 400)) <> -2)
    by discriminate.
  destruct (MOTOR_updateCalibration_keeps_config MAX NOISE 3 0
              (Sample.idle 0 400 (Sample.cfg 400)) H1 H2) as [H _].
  exact H.
Defined.

(** X12 on a failed calibration: the periodic call leaves the error. *)
Lemma calibration_error_absorbing_witness :
  MOTOR_calibration_step
    (MOTOR_updateCalibration MAX NOISE 1 0
       (set_MOTOR_calibration_step (-1) Sample.fresh)) = -1 /\
  MOTOR_calibration_step
    (MOTOR_timer_stop MAX MIN NOISE ERR
       (set_MOTOR_calibration_step (-1) Sample.fresh)) = -1.
Proof.
  assert (H1 : 1 <> 0) by discriminate.
  destruct (calibration_error_absorbing MAX MIN NOISE ERR PULSE STOP true 1 0 0
              (set_MOTOR_calibration_step (-1) Sample.fresh) eq_refl H1)
    as (A & B & _).
  split; [exact A | exact B].
Defined.

(** X13 on the start-up state. *)
Lemma calibration_step_valid_witness :
  valid_step (MOTOR_calibration_step (MOTOR_updateCalibration MAX NOISE 1 0 Sample.fresh))
  = true.
Proof.
  destruct (calibration_step_valid MAX MIN NOISE ERR PULSE STOP true 1 0 0
              Sample.fresh eq_refl) as (H & _).
  exact H.
Defined.

(** X14 on an opening leg 3 that stopped at position 300. *)
Lemma MOTOR_timer_stop_reverses_witness :
  MOTOR_Dir (MOTOR_timer_stop MAX MIN NOISE ERR
               (Sample.running open 3 300 1000 (Sample.cfg (-1)))) = close /\
  MOTOR_PosStop (MOTOR_timer_stop MAX MIN NOISE ERR
                   (Sample.running open 3 300 1000 (Sample.cfg (-1)))) = -700.
Proof.
  assert (H1 : eye_timer (Sample.running open 3 300 1000 (Sample.cfg (-1))) <> 0xff)
    by discriminate.
  assert (H3 : MOTOR_Dir (Sample.running open 3 300 1000 (Sample.cfg (-1))) <> stop)
    by discriminate.
  destruct (MOTOR_timer_stop_reverses MAX MIN NOISE ERR
              (Sample.running open 3 300 1000 (Sample.cfg (-1))) H1 eq_refl H3)
    as (_ & D & _ & P).
  split; [exact D | exact P].
Defined.

(** X16 on an idle motor. *)
Lemma MOTOR_timer_stop_motor_off_witness :
  MOTOR_Dir (MOTOR_timer_stop MAX MIN NOISE ERR (Sample.idle 0 400 (Sample.cfg (-1))))
  = stop.
Proof.
  destruct (MOTOR_timer_stop_motor_off MAX MIN NOISE ERR
              (Sample.idle 0 400 (Sample.cfg (-1)))
              (or_intror (or_intror eq_refl))) as [H _].
  exact H.
Defined.

(** X17 on an opening leg 4 that stopped at position 300. *)
Lemma MOTOR_timer_stop_open_end_witness :
  MOTOR_PosMax (MOTOR_timer_stop MAX MIN NOISE ERR
                  (Sample.running open 4 300 1000 (Sample.cfg (-1))))
  = MOTOR_PosAct (MOTOR_timer_stop MAX MIN NOISE ERR
                    (Sample.running open 4 300 1000 (Sample.cfg (-1)))).
Proof.
  assert (H1 : eye_timer (Sample.running open 4 300 1000 (Sample.cfg (-1))) <> 0xff)
    by discriminate.
  destruct (MOTOR_timer_stop_open_end MAX MIN NOISE ERR
              (Sample.running open 4 300 1000 (Sample.cfg (-1))) H1 eq_refl)
    as (H & _).
  exact H.
Defined.

(** X18 on a closing leg 4 that overran the origin by two pulses. *)
Lemma MOTOR_timer_stop_close_end_witness :
  MOTOR_PosAct (MOTOR_timer_stop MAX MIN NOISE ERR
                  (set_MOTOR_PosMax 300
                     (Sample.running close 4 (-2) (-700) (Sample.cfg (-1))))) = 0 /\
  MOTOR_PosMax (MOTOR_timer_stop MAX MIN NOISE ERR
                  (set_MOTOR_PosMax 300
                     (Sample.running close 4 (-2) (-700) (Sample.cfg (-1))))) = 302.
Proof.
  assert (H1 : eye_timer (set_MOTOR_PosMax 300
                 (Sample.running close 4 (-2) (-700) (Sample.cfg (-1)))) <> 0xff)
    by discriminate.
  destruct (MOTOR_timer_stop_close_end MAX MIN NOISE ERR
              (set_MOTOR_PosMax 300
                 (Sample.running close 4 (-2) (-700) (Sample.cfg (-1))))
              H1 eq_refl) as (A & B & _).
  split; [exact A | apply B; reflexivity].
Defined.

(** X19 on the first opening run of a motor in manual mode. *)
Lemma MOTOR_timer_stop_first_measurement_witness :
  MOTOR_ManuCalibration
    (config (MOTOR_timer_stop MAX MIN NOISE ERR
               (Sample.running open 4 300 1000 (Sample.cfg 0)))) = 300.
Proof.
  assert (H1 : eye_timer (Sample.running open 4 300 1000 (Sample.cfg 0)) <> 0xff)
    by discriminate.
  assert (H4 : MIN <= MOTOR_PosAct (Sample.running open 4 300 1000 (Sample.cfg 0)))
    by (cbn; unfold MIN; lia).
  destruct (MOTOR_timer_stop_first_measurement MAX MIN NOISE ERR
              (Sample.running open 4 300 1000 (Sample.cfg 0))) as [H _].
  destruct (H H1 eq_refl eq_refl H4) as [E _].
  exact E.
Defined.

(** X20 on a calibration that opened to 300 and closed back to 0. *)
Lemma calibration_open_then_close_witness :
  MOTOR_calibration_step
    (MOTOR_timer_stop MAX MIN NOISE ERR
       (set_MOTOR_PosAct 0
          (MOTOR_timer_stop MAX MIN NOISE ERR
             (Sample.running open 3 300 1000 (Sample.cfg (-1)))))) = 0 /\
  MOTOR_PosMax
    (MOTOR_timer_stop MAX MIN NOISE ERR
       (set_MOTOR_PosAct 0
          (MOTOR_timer_stop MAX MIN NOISE ERR
             (Sample.running open 3 300 1000 (Sample.cfg (-1)))))) = 300.
Proof.
  assert (H1 : eye_timer (Sample.running open 3 300 1000 (Sample.cfg (-1))) <> 0xff)
    by discriminate.
  assert (H4 : MOTOR_ManuCalibration (config (Sample.running open 3 300 1000 (Sample.cfg (-1)))) < 0)
    by reflexivity.
  assert (H5 : Int.in_int16 (MOTOR_PosAct (Sample.running open 3 300 1000 (Sample.cfg (-1)))))
    by (unfold Int.in_int16; cbn; lia).
  assert (H6 : eye_timer
                 (set_MOTOR_PosAct 0
                    (MOTOR_timer_stop MAX MIN NOISE ERR
                       (Sample.running open 3 300 1000 (Sample.cfg (-1))))) <> 0xff)
    by discriminate.
  destruct (calibration_open_then_close MAX MIN NOISE ERR
              (Sample.running open 3 300 1000 (Sample.cfg (-1)))
              (set_MOTOR_PosAct 0
                 (MOTOR_timer_stop MAX MIN NOISE ERR
                    (Sample.running open 3 300 1000 (Sample.cfg (-1)))))
              H1 eq_refl eq_refl H4 H5 H6 eq_refl eq_refl eq_refl eq_refl)
    as (A & _ & _ & _ & B).
  split; [exact A | apply B; reflexivity].
Defined.

(** X22 on a sample with PE4 and PE0 low, with a serial port compiled in. *)
Lemma PCINT0_vect_ignored_witness :
  PCINT0_vect NOISE PULSE true 0 (Sample.running open 0 50 100 (Sample.cfg (-1)))
  = set_pine_last 0
      (set_PCMSK0 (Avr.clear_bits 0 (Avr.bit Avr.PCINT0))
         (RS_enable_rx (Sample.running open 0 50 100 (Sample.cfg (-1))))) /\
  MOTOR_PosAct (PCINT0_vect NOISE PULSE true 0
                  (Sample.running open 0 50 100 (Sample.cfg (-1)))) = 50.
Proof.
  destruct (PCINT0_vect_ignored NOISE PULSE true 0
              (Sample.running open 0 50 100 (Sample.cfg (-1))) eq_refl)
    as (E & H & _).
  split; [exact E | exact H].
Defined.

(** X23 on a rising edge at position 50 while opening towards 100. *)
Lemma PCINT0_vect_counted_witness :
  MOTOR_PosAct (PCINT0_vect NOISE PULSE true 0x10
                  (Sample.running open 0 50 100 (Sample.cfg (-1)))) = 51 /\
  eye_timer (PCINT0_vect NOISE PULSE true 0x10
               (Sample.running open 0 50 100 (Sample.cfg (-1)))) = NOISE.
Proof.
  assert (H2 : Int.int16 (MOTOR_PosAct (Sample.running open 0 50 100 (Sample.cfg (-1)))
                          + dir_val (MOTOR_Dir (Sample.running open 0 50 100 (Sample.cfg (-1)))))
               <> MOTOR_PosStop (Sample.running open 0 50 100 (Sample.cfg (-1))))
    by discriminate.
  destruct (PCINT0_vect_counted NOISE PULSE true 0x10
              (Sample.running open 0 50 100 (Sample.cfg (-1))) eq_refl H2)
    as (A & B & _).
  split; [exact A | exact B].
Defined.

(** X24 on two rising samples in a row. *)
Lemma PCINT0_vect_debounce_witness :
  pulse_counts 0x10
    (PCINT0_vect NOISE PULSE true 0x10
       (Sample.running open 0 50 100 (Sample.cfg (-1)))) = false.
Proof.
  assert (H1 : NOISE <> 0) by discriminate.
  destruct (PCINT0_vect_debounce NOISE PULSE true 0x10 0x10
              (Sample.running open 0 50 100 (Sample.cfg (-1)))) as [_ H].
  exact (H H1 eq_refl).
Defined.

(** X25 on a motor whose timeout counter is at 0. *)
Lemma TIMER0_OVF_vect_timeout_witness :
  H_BRIDGE (io (TIMER0_OVF_vect PULSE STOP
                  (MOTOR_H_BRIDGE_open (Sample.running open 0 50 100 (Sample.cfg (-1))))))
  = hb_stop /\
  motor_diag (TIMER0_OVF_vect PULSE STOP
                (MOTOR_H_BRIDGE_open (Sample.running open 0 50 100 (Sample.cfg (-1)))))
  = 0xfffe.
Proof.
  destruct (TIMER0_OVF_vect_timeout PULSE STOP
              (MOTOR_H_BRIDGE_open (Sample.running open 0 50 100 (Sample.cfg (-1))))
              eq_refl) as (A & _ & _ & _ & B & _).
  split; [exact A | exact B].
Defined.

(** X26 on a debounce counter of 5 after 3 and after 9 overflows. *)
Lemma timer_ticks_debounce_witness :
  eye_timer (timer_ticks PULSE STOP 3
               (set_eye_timer 5 (Sample.running open 0 50 100 (Sample.cfg (-1))))) = 2 /\
  eye_timer (timer_ticks PULSE STOP 9
               (set_eye_timer 5 (Sample.running open 0 50 100 (Sample.cfg (-1))))) = 0.
Proof.
  assert (H : 0 <= eye_timer (set_eye_timer 5
                 (Sample.running open 0 50 100 (Sample.cfg (-1)))) < 0xff)
    by (cbn; lia).
  split.
  - destruct (timer_ticks_debounce PULSE STOP 3
                (set_eye_timer 5 (Sample.running open 0 50 100 (Sample.cfg (-1)))))
      as [D _].
    exact (D H).
  - destruct (timer_ticks_debounce PULSE STOP 9
                (set_eye_timer 5 (Sample.running open 0 50 100 (Sample.cfg (-1)))))
      as [D _].
    exact (D H).
Defined.

(** X27 on a timeout counter of 3: the fourth overflow stops the bridge. *)
Lemma timer_ticks_expire_witness :
  H_BRIDGE (io (timer_ticks PULSE STOP 4
                  (set_motor_timer 3
                     (MOTOR_H_BRIDGE_open
                        (Sample.running open 0 50 100 (Sample.cfg (-1)))))))
  = hb_stop.
Proof.
  assert (H : 0 <= motor_timer
                     (set_motor_timer 3
                        (MOTOR_H_BRIDGE_open
                           (Sample.running open 0 50 100 (Sample.cfg (-1))))))
    by (cbn; lia).
  destruct (timer_ticks_expire PULSE STOP
              (set_motor_timer 3
                 (MOTOR_H_BRIDGE_open
                    (Sample.running open 0 50 100 (Sample.cfg (-1)))))
              H) as [_ [E _]].
  exact E.
Defined.

(** X28 on a motor just switched to opening from position 0 with the stop
    position at 0 behind it: three pulses. *)
Lemma pulse_cycles_count_witness :
  MOTOR_PosAct
    (Nat.iter 3 (pulse_cycle NOISE PULSE STOP true 0 0x10)
       (MOTOR_Control NOISE open (Sample.idle 0 400 (Sample.cfg (-1))))) = 3.
Proof.
  assert (Hn : 0 <= NOISE < 0xff) by (unfold NOISE; lia).
  assert (Hm : NOISE <= motor_max_time_for_impulse
                          (MOTOR_Control NOISE open (Sample.idle 0 400 (Sample.cfg (-1)))))
    by (cbn; unfold NOISE; lia).
  assert (Ha : Int.in_int16
                 (MOTOR_PosAct (MOTOR_Control NOISE open (Sample.idle 0 400 (Sample.cfg (-1))))))
    by (unfold Int.in_int16; cbn; lia).
  assert (He : Int.in_int16
                 (MOTOR_PosAct (MOTOR_Control NOISE open (Sample.idle 0 400 (Sample.cfg (-1))))
                  + Z.of_nat 3
                    * dir_val (MOTOR_Dir (MOTOR_Control NOISE open
                                            (Sample.idle 0 400 (Sample.cfg (-1)))))))
    by (unfold Int.in_int16; cbn; lia).
  assert (Hs : forall k, 1 <= k <= Z.of_nat 3 ->
                 MOTOR_PosAct (MOTOR_Control NOISE open (Sample.idle 0 400 (Sample.cfg (-1))))
                 + k * dir_val (MOTOR_Dir (MOTOR_Control NOISE open
                                             (Sample.idle 0 400 (Sample.cfg (-1)))))
                 <> MOTOR_PosStop (MOTOR_Control NOISE open
                                     (Sample.idle 0 400 (Sample.cfg (-1)))))
    by (intros k Hk; cbn in *; lia).
  destruct (pulse_cycles_count NOISE PULSE STOP true 0 0x10 3
              (MOTOR_Control NOISE open (Sample.idle 0 400 (Sample.cfg (-1))))
              eq_refl eq_refl Hn eq_refl eq_refl Hm Ha He Hs) as (H & _).
  exact H.
Defined.
